(** * gomelon: managed lifecycle and multi-connector server runtime

    A shallow embedding of the Go sources of the repository
    (packages [gows], [core], [gomelon] and [server]) together with the
    properties of its lifecycle code: concurrent connector start-up,
    the admin side-channel, command dispatch and filter wiring. *)

From stdpp Require Import gmap strings list fin_maps functions.

(** ** Shared Go notions *)

(** A Go [error] value is identified with the text its [Error()] method
    returns; the [nil] error is [None] of [option error]. *)
Definition error := string.

(** A call either completes or panics. *)
Inductive Outcome (A : Type) : Type :=
| Done (a : A)
| Panic (msg : string).
Arguments Done {A} a.
Arguments Panic {A} msg.

Definition obind {A B : Type} (m : Outcome A) (k : A -> Outcome B) : Outcome B :=
  match m with
  | Done a => k a
  | Panic msg => Panic msg
  end.

Notation "x <-! m ; k" := (obind m (fun x => k))
  (at level 100, m at next level, right associativity).

(** Line feed and horizontal tab, as they occur in Go string literals. *)
Definition LF : string := String (Ascii.ascii_of_nat 10) EmptyString.
Definition TAB : string := String (Ascii.ascii_of_nat 9) EmptyString.

(** The double quote of a Go string literal. *)
Definition DQ : string := String (Ascii.ascii_of_nat 34) EmptyString.

(** ** net/http: the response writer *)

Module http.

Definition StatusOK : nat := 200.
Definition StatusBadRequest : nat := 400.
Definition StatusInternalServerError : nat := 500.
Definition StatusNotImplemented : nat := 501.

(** [status] is [None] until the header has been written. *)
Record ResponseWriter : Type := {
  header : gmap string string;
  status : option nat;
  body : string
}.

Definition NewResponseWriter : ResponseWriter :=
  {| header := ∅; status := None; body := "" |}.

(** [w.Header().Set(key, value)] *)
Definition Header_Set (key value : string) (w : ResponseWriter) : ResponseWriter :=
  {| header := <[key := value]> (header w); status := status w; body := body w |}.

(** [w.WriteHeader(code)]: only the first call takes effect. *)
Definition WriteHeader (code : nat) (w : ResponseWriter) : ResponseWriter :=
  match status w with
  | Some _ => w
  | None => {| header := header w; status := Some code; body := body w |}
  end.

(** [w.Write(bytes)]: writes the header with [StatusOK] first when it
    has not been written yet. *)
Definition Write (bytes : string) (w : ResponseWriter) : ResponseWriter :=
  let w := WriteHeader StatusOK w in
  {| header := header w; status := status w; body := body w +:+ bytes |}.

Definition StatusNotFound : nat := 404.

(** [http.Error(w, msg, code)] replies with the message as plain text. *)
Definition Error (msg : string) (code : nat) (w : ResponseWriter) : ResponseWriter :=
  let w := Header_Set "Content-Type" "text/plain; charset=utf-8" w in
  let w := Header_Set "X-Content-Type-Options" "nosniff" w in
  let w := WriteHeader code w in
  Write (msg +:+ LF) w.

(** [http.NotFound(w, r)] *)
Definition NotFound (w : ResponseWriter) : ResponseWriter :=
  Error "404 page not found" StatusNotFound w.

End http.

(** ** goburrow/health: results and the registry *)

Module health.

Record Result : Type := {
  Healthy : bool;
  Message : string;
  Cause : option error
}.

(** Modelled from the spec: the health-check registry is an external
    collaborator with the contract [run() -> mapping(name -> result)]
    and [names() -> set(name)]. A registry is given by its registered
    checks, each with the result it reports when it is run, in the
    order in which a [range] over the result map yields them. *)
Definition Registry : Type := list (string * Result).

Definition NewRegistry : Registry := [].

Definition RunHealthChecks (registry : Registry) : list (string * Result) := registry.

Definition Names (registry : Registry) : list string := map fst registry.

End health.

(** [%t] of package fmt. *)
Definition fmt_bool (b : bool) : string := if b then "true" else "false".

(** One entry of the operational menu: [<li><a href="%[1]s%[k]s">label</a></li>]
    on a line of its own, behind two tabs. *)
Definition menu_item (contextPath uri label : string) : string :=
  TAB +:+ TAB +:+ "<li><a href=" +:+ DQ +:+ contextPath +:+ uri +:+ DQ +:+ ">"
      +:+ label +:+ "</a></li>" +:+ LF.

(** [fmt.Sprintf(adminHTML, a1, a2, a3, a4, a5)]: the template of the
    operational menu (the same in both packages) with its indexed
    arguments filled in. *)
Definition Sprintf_adminHTML (a1 a2 a3 a4 a5 : string) : string :=
  "<!DOCTYPE html>" +:+ LF
  +:+ "<html>" +:+ LF
  +:+ "<head>" +:+ LF
  +:+ TAB +:+ "<title>Operational Menu</title>" +:+ LF
  +:+ "</head>" +:+ LF
  +:+ "<body>" +:+ LF
  +:+ TAB +:+ "<h1>Operational Menu</h1>" +:+ LF
  +:+ TAB +:+ "<ul>" +:+ LF
  +:+ menu_item a1 a2 "Metrics"
  +:+ menu_item a1 a3 "Ping"
  +:+ menu_item a1 a4 "Runtime"
  +:+ menu_item a1 a5 "Healthcheck"
  +:+ TAB +:+ "</ul>" +:+ LF
  +:+ "</body>" +:+ LF
  +:+ "</html>" +:+ LF.

(** ** Package gows: connectors and the server *)

Module gows.

(** The fields of [ConnectorConfiguration] the connector reads. *)
Record ConnectorConfiguration : Type := {
  Addr : string;
  Type_ : string;
  CertFile : string;
  KeyFile : string
}.

Record ServerConfiguration : Type := {
  ApplicationConnectors : list ConnectorConfiguration;
  AdminConnectors : list ConnectorConfiguration
}.

(** [http.Server] as built by [newServerConnector]: the address and a
    reference to the handler. *)
Record http_Server : Type := {
  Server_Addr : string;
  Server_Handler : nat
}.

Record DefaultServerConnector : Type := {
  Server : http_Server;
  configuration : ConnectorConfiguration
}.

Definition newServerConnector (handler : nat) (configuration : ConnectorConfiguration)
  : DefaultServerConnector :=
  {| Server := {| Server_Addr := Addr configuration; Server_Handler := handler |};
     configuration := configuration |}.

(** What a blocking call of [net/http] does: it serves for ever, or it
    returns its terminal error. *)
Inductive ServeResult : Type :=
| Serves
| Returns (err : option error).

(** The two entry points of [http.Server] the connector calls; their
    behaviour is given by the network environment. *)
Record Net : Type := {
  ListenAndServe : http_Server -> ServeResult;
  ListenAndServeTLS : http_Server -> string -> string -> ServeResult
}.

(** [start] of a connector. *)
Definition start (net : Net) (connector : DefaultServerConnector) : ServeResult :=
  if String.eqb (Type_ (configuration connector)) "https"
  then ListenAndServeTLS net (Server connector)
         (CertFile (configuration connector)) (KeyFile (configuration connector))
  else ListenAndServe net (Server connector).

Record DefaultServer : Type := {
  Connectors : list DefaultServerConnector;
  server_configuration : ServerConfiguration
}.

Definition NewDefaultServer (configuration : ServerConfiguration) : DefaultServer :=
  {| Connectors := []; server_configuration := configuration |}.

(** [AddConnectors] appends one connector per configuration, in order. *)
Definition AddConnectors (handler : nat) (configurations : list ConnectorConfiguration)
    (server : DefaultServer) : DefaultServer :=
  {| Connectors :=
       fold_left (fun cs cfg => cs ++ [newServerConnector handler cfg])
                 configurations (Connectors server);
     server_configuration := server_configuration server |}.

(** The goroutine [Start] launches for a connector is in one of three
    states: inside [c.start()] (the listener is serving), blocked on
    [errorChan <- r] with the result [r] of [c.start()], or finished
    after the result was received. *)
Inductive goroutine : Type :=
| Serving (c : DefaultServerConnector)
| Sending (c : DefaultServerConnector) (r : option error)
| Exited (c : DefaultServerConnector) (r : option error).

Definition launch (net : Net) (c : DefaultServerConnector) : goroutine :=
  match start net c with
  | Serves => Serving c
  | Returns r => Sending c r
  end.

(** The state of the process as far as the server is concerned: the
    goroutines of the connectors and, as ghost state, the number of
    times [Stop] was entered. *)
Record Proc : Type := {
  goroutines : list goroutine;
  stops : nat
}.

Definition is_sending (g : goroutine) : bool :=
  match g with Sending _ _ => true | _ => false end.

Definition is_exited (g : goroutine) : bool :=
  match g with Exited _ _ => true | _ => false end.

Definition senders (gs : list goroutine) : nat := length (List.filter is_sending gs).

Definition exited (gs : list goroutine) : nat := length (List.filter is_exited gs).

(** The receive on the unbuffered channel meets the [k]-th goroutine
    that is blocked on its send; that goroutine finishes. *)
Fixpoint recv_nth (k : nat) (gs : list goroutine)
  : option (option error * list goroutine) :=
  match gs with
  | [] => None
  | Sending c r :: gs' =>
      match k with
      | 0 => Some (r, Exited c r :: gs')
      | S k' =>
          match recv_nth k' gs' with
          | Some (r', gs'') => Some (r', Sending c r :: gs'')
          | None => None
          end
      end
  | g :: gs' =>
      match recv_nth k gs' with
      | Some (r', gs'') => Some (r', g :: gs'')
      | None => None
      end
  end.

(** [select { case err := <-errorChan }]: the scheduler's [choice]
    decides which of the blocked senders is received; with no sender
    the receive blocks ([None]). *)
Definition select (choice : nat) (gs : list goroutine)
  : option (option error * list goroutine) :=
  recv_nth (choice mod senders gs) gs.

Inductive StartOutcome : Type :=
| Returned (err : option error)
| Blocked.

(** [Stop]: the body is [return nil]. *)
Definition Stop (server : DefaultServer) (p : Proc) : option error * Proc :=
  (None, {| goroutines := goroutines p; stops := S (stops p) |}).

(** The receiving loop of [Start], [for i := len(server.Connectors); i > 0; i--]. *)
Fixpoint Start_loop (server : DefaultServer) (i : nat) (sched : list nat) (p : Proc)
  : StartOutcome * Proc :=
  match i with
  | 0 => (Returned None, p)
  | S i' =>
      match select (hd 0 sched) (goroutines p) with
      | None => (Blocked, p)
      | Some (err, gs) =>
          let p' := {| goroutines := gs; stops := stops p |} in
          match err with
          | Some e => let '(_, p'') := Stop server p' in (Returned (Some e), p'')
          | None => Start_loop server i' (tl sched) p'
          end
      end
  end.

(** [Start]: one goroutine per connector, then the receiving loop.
    [sched] lists the scheduler's choices, one per receive. *)
Definition Start (net : Net) (sched : list nat) (server : DefaultServer)
  : StartOutcome * Proc :=
  Start_loop server (length (Connectors server)) sched
    {| goroutines := map (launch net) (Connectors server); stops := 0 |}.

(** *** The handler of a listener (net/http's [ServeMux] behind a context path) *)

Inductive HttpHandler : Type :=
| HandlerFunc_handleAdminPing
| HandlerFunc_handleAdminRuntime
| DefaultHealthCheckHandler (registry : health.Registry)
| DefaultAdminHandler (contextPath : string)
| TaskHandler (task : nat).

(** [http.ServeMux.Handle]: panics on the empty pattern and on a pattern
    that is already registered. *)
Definition ServeMux_Handle (pattern : string) (handler : HttpHandler)
    (mux : gmap string HttpHandler) : Outcome (gmap string HttpHandler) :=
  if decide (pattern = "") then Panic "http: invalid pattern "
  else match mux !! pattern with
       | Some _ => Panic ("http: multiple registrations for " +:+ pattern)
       | None => Done (<[pattern := handler]> mux)
       end.

Record DefaultServerHandler : Type := {
  ContextPath : string;
  ServeMux : gmap string HttpHandler
}.

Definition NewDefaultServerHandler : DefaultServerHandler :=
  {| ContextPath := ""; ServeMux := ∅ |}.

(** [Handle] registers the handler for the pattern under the context path. *)
Definition Handle (pattern : string) (handler : HttpHandler)
    (server : DefaultServerHandler) : Outcome DefaultServerHandler :=
  let path := ContextPath server +:+ pattern in
  mux <-! ServeMux_Handle path handler (ServeMux server);
  Done {| ContextPath := ContextPath server; ServeMux := mux |}.

(** *** The admin environment (admin.go) *)

Definition metricsUri : string := "/metrics".
Definition pingUri : string := "/ping".
Definition runtimeUri : string := "/runtime".
Definition healthCheckUri : string := "/healthcheck".

(** [ServerHandler] is [None] while the field is [nil]. *)
Record AdminEnvironment : Type := {
  ServerHandler : option DefaultServerHandler;
  HealthCheckRegistry : health.Registry
}.

Definition NewAdminEnvironment : AdminEnvironment :=
  {| ServerHandler := None; HealthCheckRegistry := health.NewRegistry |}.

Definition nil_dereference : string :=
  "runtime error: invalid memory address or nil pointer dereference".

Definition NewHealthCheckHandler (registry : health.Registry) : HttpHandler :=
  DefaultHealthCheckHandler registry.

Definition NewAdminHandler (contextPath : string) : HttpHandler :=
  DefaultAdminHandler contextPath.

(** [AddTask] registers the task at once, under [/tasks/<name>]. *)
Definition AddTask (name : string) (task : nat) (env : AdminEnvironment)
  : Outcome AdminEnvironment :=
  match ServerHandler env with
  | None => Panic nil_dereference
  | Some sh =>
      let path := "/tasks/" +:+ name in
      sh <-! Handle path (TaskHandler task) sh;
      Done {| ServerHandler := Some sh; HealthCheckRegistry := HealthCheckRegistry env |}
  end.

(** [addHandlers] registers all required HTTP handlers. *)
Definition addHandlers (env : AdminEnvironment) : Outcome AdminEnvironment :=
  match ServerHandler env with
  | None => Panic nil_dereference
  | Some sh =>
      sh <-! Handle pingUri HandlerFunc_handleAdminPing sh;
      sh <-! Handle runtimeUri HandlerFunc_handleAdminRuntime sh;
      sh <-! Handle healthCheckUri (NewHealthCheckHandler (HealthCheckRegistry env)) sh;
      sh <-! Handle "/" (NewAdminHandler (ContextPath sh)) sh;
      Done {| ServerHandler := Some sh; HealthCheckRegistry := HealthCheckRegistry env |}
  end.

(** [isAllHealthy] checks if all are healthy. *)
Fixpoint isAllHealthy (results : list (string * health.Result)) : bool :=
  match results with
  | [] => true
  | (_, result) :: results' =>
      if negb (health.Healthy result) then false else isAllHealthy results'
  end.

(** The body of the loop over the results in [ServeHTTP]. *)
Definition writeResult (w : http.ResponseWriter) (entry : string * health.Result)
  : http.ResponseWriter :=
  let '(name, result) := entry in
  let w := http.Write (name +:+ ":" +:+ LF +:+ TAB +:+ "Healthy: "
                       +:+ fmt_bool (health.Healthy result) +:+ LF) w in
  let w := if decide (health.Message result = "") then w
           else http.Write (TAB +:+ "Message: " +:+ health.Message result +:+ LF) w in
  match health.Cause result with
  | Some cause => http.Write (TAB +:+ "Cause: " +:+ cause +:+ LF) w
  | None => w
  end.

(** [ServeHTTP] of [DefaultHealthCheckHandler]. *)
Definition DefaultHealthCheckHandler_ServeHTTP (registry : health.Registry)
    (w : http.ResponseWriter) : http.ResponseWriter :=
  let w := http.Header_Set "Cache-Control" "must-revalidate,no-cache,no-store" w in
  let w := http.Header_Set "Content-Type" "text/plain" w in
  let results := health.RunHealthChecks registry in
  if length results =? 0 then
    let w := http.WriteHeader http.StatusNotImplemented w in
    http.Write "No health checks registered." w
  else
    let w := if negb (isAllHealthy results)
             then http.WriteHeader http.StatusInternalServerError w else w in
    fold_left writeResult results w.

(** [handleAdminPing] handles ping request to admin [/ping]. *)
Definition handleAdminPing (w : http.ResponseWriter) : http.ResponseWriter :=
  let w := http.Header_Set "Cache-Control" "must-revalidate,no-cache,no-store" w in
  let w := http.Header_Set "Content-Type" "text/plain" w in
  http.Write ("pong" +:+ LF) w.

(** [ServeHTTP] of [DefaultAdminHandler] handles a request to the root of
    the admin page; [path] is [r.URL.Path]. The pattern [/] matches
    everything, so the handler checks that the request is for the root. *)
Definition DefaultAdminHandler_ServeHTTP (contextPath : string) (path : string)
    (w : http.ResponseWriter) : http.ResponseWriter :=
  let rootUri := contextPath +:+ "/" in
  if negb (String.eqb path rootUri) then http.NotFound w
  else
    let w := http.Header_Set "Cache-Control" "must-revalidate,no-cache,no-store" w in
    let w := http.Header_Set "Content-Type" "text/html" w in
    http.Write
      (Sprintf_adminHTML contextPath metricsUri pingUri runtimeUri healthCheckUri) w.

(** *** The server command *)

Definition ServerCommand_Name : string := "server".

Definition ServerCommand_Description : string :=
  "Runs the application as an HTTP server".

(** The collaborators the command calls, in the order of the source. *)
Inductive Stage : Type :=
| StageBuildConfiguration
| StageBuildServer
| StageBundles
| StageApplication
| StageStart.

Section ServerCommand.
(** [W] is the state of the process the collaborators act on; the
    configuration, the environment and the server are the values the
    factories hand back. *)
Context {W Configuration Environment Server : Type}.

(** The bootstrap as the command reads it: the arguments, the two
    factories, [bootstrap.run] (all the bundles) and the application. *)
Record Bootstrap : Type := {
  Arguments : list string;
  BuildConfiguration : list string -> W -> Configuration * option error * W;
  BuildServer : Configuration -> Environment -> W -> Server * option error * W;
  run : Configuration -> Environment -> W -> option error * W;
  Application_Name : string;
  Application_Run : Configuration -> Environment -> W -> option error * W
}.

Variable NewEnvironment : string -> Environment.

(** [Start] of the [Managed] server the factory built. *)
Variable Server_Start : Server -> W -> StartOutcome * W.

(** The calls made so far, each with what it returned (ghost state). *)
Definition CallLog : Type := list (Stage * StartOutcome).

(** [Run] runs the command with the given bootstrap. *)
Definition ServerCommand_Run (bootstrap : Bootstrap) (w : W) (log : CallLog)
  : Outcome StartOutcome * W * CallLog :=
  match Arguments bootstrap with
  | [] => (Panic "runtime error: slice bounds out of range [1:0]", w, log)
  | _ :: arguments =>
      (* Parse configuration *)
      let '(configuration, err, w) := BuildConfiguration bootstrap arguments w in
      let log := log ++ [(StageBuildConfiguration, Returned err)] in
      match err with
      | Some e => (Done (Returned (Some e)), w, log)
      | None =>
          (* Create environment *)
          let environment := NewEnvironment (Application_Name bootstrap) in
          let '(server, err, w) := BuildServer bootstrap configuration environment w in
          let log := log ++ [(StageBuildServer, Returned err)] in
          match err with
          | Some e => (Done (Returned (Some e)), w, log)
          | None =>
              (* Run all bundles in bootstrap *)
              let '(err, w) := run bootstrap configuration environment w in
              let log := log ++ [(StageBundles, Returned err)] in
              match err with
              | Some e => (Done (Returned (Some e)), w, log)
              | None =>
                  (* Run application *)
                  let '(err, w) :=
                    Application_Run bootstrap configuration environment w in
                  let log := log ++ [(StageApplication, Returned err)] in
                  match err with
                  | Some e => (Done (Returned (Some e)), w, log)
                  | None =>
                      let '(out, w) := Server_Start server w in
                      (Done out, w, log ++ [(StageStart, out)])
                  end
              end
          end
      end
  end.

End ServerCommand.

(** A goroutine after the run, compared with what was launched: it is
    untouched, or it was blocked on its send and its result was
    received. *)
Definition delivered_from (g0 g : goroutine) : Prop :=
  g = g0 \/ exists c r, g0 = Sending c r /\ g = Exited c r.

(** Every result received so far is [nil]. *)
Definition nil_if_exited (g : goroutine) : Prop :=
  forall c r, g = Exited c r -> r = None.

(** Every result waiting on the channel is [nil]. *)
Definition nil_if_sending (g : goroutine) : Prop :=
  forall c r, g = Sending c r -> r = None.

(** All the results the connectors sent were received: the goroutine of
    every connector has finished and none is blocked on the channel. *)
Definition all_results_consumed (server : DefaultServer) (p : Proc) : Prop :=
  exited (goroutines p) = length (Connectors server) /\
  senders (goroutines p) = 0.

(** The first [k] receives on the result channel under the schedule,
    whatever their results: the results in the order of receipt and the
    goroutines after the last of them, or [None] when one of these
    receives finds no sender. *)
Fixpoint receive (k : nat) (sched : list nat) (gs : list goroutine)
  : option (list (option error) * list goroutine) :=
  match k with
  | 0 => Some ([], gs)
  | S k' =>
      match select (hd 0 sched) gs with
      | None => None
      | Some (r, gs') =>
          match receive k' (tl sched) gs' with
          | None => None
          | Some (rs, gs'') => Some (r :: rs, gs'')
          end
      end
  end.

(** Some connector's error [e] was received. *)
Definition Exited_with (e : error) (gs : list goroutine) : Prop :=
  exists c, Exited c (Some e) ∈ gs.

(** A goroutine once its pending result has been received. *)
Definition settle (g : goroutine) : goroutine :=
  match g with
  | Sending c r => Exited c r
  | _ => g
  end.

End gows.

(** ** Package core: the admin environment with tasks *)

Module core.

Definition metricsUri : string := "/metrics".
Definition pingUri : string := "/ping".
Definition runtimeUri : string := "/runtime".
Definition healthCheckUri : string := "/healthcheck".
Definition tasksUri : string := "/tasks".

Definition noHealthChecksWarning : string :=
  LF +:+ "!!!!!!!!!!!!!!!!!!!!!!!!!!!!!!!!!!!!!!!!!!!!!!!" +:+ LF
     +:+ "!    THIS APPLICATION HAS NO HEALTHCHECKS.    !" +:+ LF
     +:+ "!!!!!!!!!!!!!!!!!!!!!!!!!!!!!!!!!!!!!!!!!!!!!!!" +:+ LF.

Definition adminLoggerName : string := "gomelon.admin".

Definition gcTaskName : string := "gc".
Definition logTaskName : string := "log".

(** The tasks: the two of this package and those of the application,
    which are given by their name and the name of their Go type. *)
Inductive Task : Type :=
| GCTask
| LogTask
| AppTask (name : string) (type_name : string).

Definition Task_Name (task : Task) : string :=
  match task with
  | GCTask => gcTaskName
  | LogTask => logTaskName
  | AppTask name _ => name
  end.

(** [%T] of a task. *)
Definition Task_TypeName (task : Task) : string :=
  match task with
  | GCTask => "*core.GCTask"
  | LogTask => "*core.LogTask"
  | AppTask _ type_name => type_name
  end.

Inductive HttpHandler : Type :=
| HandlerFunc_handleAdminPing
| HandlerFunc_handleAdminRuntime
| HealthCheckHandler (registry : health.Registry)
| AdminHandler (contextPath : string)
| TaskHandler (task : Task).

(** The [ServerHandler] interface of this package. *)
Class ServerHandler (SH : Type) : Type := {
  Handle : string -> string -> HttpHandler -> SH -> SH;
  PathPrefix : SH -> string
}.

(** Modelled from the spec: the implementation of [ServerHandler] is not
    among the sources; the spec calls it the handler registrar that
    registers routes under the admin context path. A [Router] keeps the
    routes in the order of registration, each with its method, its full
    path (prefix and pattern) and its handler. *)
Record Router : Type := {
  prefix : string;
  routes : list (string * string * HttpHandler)
}.

#[global] Instance Router_ServerHandler : ServerHandler Router := {
  Handle method pattern handler r :=
    {| prefix := prefix r;
       routes := routes r ++ [(method, prefix r +:+ pattern, handler)] |};
  PathPrefix r := prefix r
}.

(** One line of a named logger of package gol. *)
Record LogLine : Type := {
  logger : string;
  level : string;
  text : string
}.

Section Admin.
Context {SH : Type} `{ServerHandler SH}.

(** [ServerHandler] is [None] while the field is [nil]. *)
Record AdminEnvironment : Type := {
  AdminServerHandler : option SH;
  HealthChecks : health.Registry;
  tasks : list Task
}.

(** [AddTask] adds new tasks to the admin environment. *)
Definition AddTask (task : list Task) (env : AdminEnvironment) : AdminEnvironment :=
  {| AdminServerHandler := AdminServerHandler env;
     HealthChecks := HealthChecks env;
     tasks := tasks env ++ task |}.

Definition NewAdminEnvironment : AdminEnvironment :=
  let env := {| AdminServerHandler := None;
                HealthChecks := health.NewRegistry;
                tasks := [] |} in
  (* Default tasks *)
  AddTask [GCTask; LogTask] env.

Definition NewHealthCheckHandler (registry : health.Registry) : HttpHandler :=
  HealthCheckHandler registry.

Definition NewAdminHandler (contextPath : string) : HttpHandler :=
  AdminHandler contextPath.

(** [logTasks] prints all registered tasks to the log; [%-7s] pads
    the method to seven columns. *)
Definition logTasks (sh : SH) (env : AdminEnvironment) (log : list LogLine)
  : list LogLine :=
  let buf :=
    fold_left
      (fun buf task =>
         buf +:+ "    " +:+ "POST   " +:+ " " +:+ PathPrefix sh +:+ tasksUri
             +:+ "/" +:+ Task_Name task +:+ " (" +:+ Task_TypeName task +:+ ")" +:+ LF)
      (tasks env) "" in
  log ++ [{| logger := adminLoggerName; level := "INFO";
             text := "tasks =" +:+ LF +:+ LF +:+ buf |}].

(** [%v] of a slice of strings. *)
Definition fmt_strings (names : list string) : string :=
  "[" +:+ String.concat " " names +:+ "]".

Definition logHealthChecks (env : AdminEnvironment) (log : list LogLine)
  : list LogLine :=
  let names := health.Names (HealthChecks env) in
  let log :=
    if length names <=? 0
    then log ++ [{| logger := adminLoggerName; level := "WARN";
                    text := noHealthChecksWarning |}]
    else log in
  log ++ [{| logger := adminLoggerName; level := "DEBUG";
             text := "health checks = " +:+ fmt_strings names |}].

Definition nil_dereference : string :=
  "runtime error: invalid memory address or nil pointer dereference".

(** [onStarting] registers all required HTTP handlers. *)
Definition onStarting (env : AdminEnvironment) (log : list LogLine)
  : Outcome (AdminEnvironment * list LogLine) :=
  match AdminServerHandler env with
  | None => Panic nil_dereference
  | Some sh =>
      let sh := Handle "GET" pingUri HandlerFunc_handleAdminPing sh in
      let sh := Handle "GET" runtimeUri HandlerFunc_handleAdminRuntime sh in
      let sh := Handle "GET" healthCheckUri
                  (NewHealthCheckHandler (HealthChecks env)) sh in
      let sh := Handle "GET" "/" (NewAdminHandler (PathPrefix sh)) sh in
      let sh :=
        fold_left
          (fun sh task =>
             let path := tasksUri +:+ "/" +:+ Task_Name task in
             Handle "POST" path (TaskHandler task) sh)
          (tasks env) sh in
      let env := {| AdminServerHandler := Some sh;
                    HealthChecks := HealthChecks env;
                    tasks := tasks env |} in
      let log := logTasks sh env log in
      let log := logHealthChecks env log in
      Done (env, log)
  end.

End Admin.

(** [isAllHealthy] checks if all are healthy. *)
Fixpoint isAllHealthy (results : list (string * health.Result)) : bool :=
  match results with
  | [] => true
  | (_, result) :: results' =>
      if negb (health.Healthy result) then false else isAllHealthy results'
  end.

(** The body of the loop over the results in [ServeHTTP]. *)
Definition writeResult (w : http.ResponseWriter) (entry : string * health.Result)
  : http.ResponseWriter :=
  let '(name, result) := entry in
  let w := http.Write (name +:+ ":" +:+ LF +:+ TAB +:+ "Healthy: "
                       +:+ fmt_bool (health.Healthy result) +:+ LF) w in
  let w := if decide (health.Message result = "") then w
           else http.Write (TAB +:+ "Message: " +:+ health.Message result +:+ LF) w in
  match health.Cause result with
  | Some cause => http.Write (TAB +:+ "Cause: " +:+ cause +:+ LF) w
  | None => w
  end.

(** [ServeHTTP] of [HealthCheckHandler]. *)
Definition HealthCheckHandler_ServeHTTP (registry : health.Registry)
    (w : http.ResponseWriter) : http.ResponseWriter :=
  let w := http.Header_Set "Cache-Control" "must-revalidate,no-cache,no-store" w in
  let w := http.Header_Set "Content-Type" "text/plain" w in
  let results := health.RunHealthChecks registry in
  if length results =? 0 then
    let w := http.WriteHeader http.StatusNotImplemented w in
    http.Write "No health checks registered." w
  else
    let w := if negb (isAllHealthy results)
             then http.WriteHeader http.StatusInternalServerError w else w in
    fold_left writeResult results w.

(** [handleAdminPing] handles ping request to admin [/ping]. *)
Definition handleAdminPing (w : http.ResponseWriter) : http.ResponseWriter :=
  let w := http.Header_Set "Cache-Control" "must-revalidate,no-cache,no-store" w in
  let w := http.Header_Set "Content-Type" "text/plain" w in
  http.Write ("pong" +:+ LF) w.

(** What a task does that can be seen from outside: it writes to the
    response, and it runs the collector. *)
Inductive Effect : Type :=
| Wrote (bytes : string)
| RuntimeGC.

(** [ServeHTTP] of [GCTask]. *)
Definition GCTask_ServeHTTP (trace : list Effect) : list Effect :=
  let trace := trace ++ [Wrote ("Running GC..." +:+ LF)] in
  let trace := trace ++ [RuntimeGC] in
  trace ++ [Wrote ("Done!" +:+ LF)].

(** The bytes a trace of effects wrote to the response. *)
Definition written (trace : list Effect) : string :=
  fold_left (fun out ev => match ev with Wrote bytes => out +:+ bytes | RuntimeGC => out end)
            trace "".

(** [ServeHTTP] of [AdminHandler] handles a request to the root of the
    admin page. *)
Definition AdminHandler_ServeHTTP (contextPath : string) (w : http.ResponseWriter)
  : http.ResponseWriter :=
  let w := http.Header_Set "Cache-Control" "must-revalidate,no-cache,no-store" w in
  let w := http.Header_Set "Content-Type" "text/html" w in
  http.Write
    (Sprintf_adminHTML contextPath metricsUri pingUri runtimeUri healthCheckUri) w.

(** *** The log task *)

Section LogTask.
(** Package gol is not part of the repository. Its levels, the names of
    the levels and its loggers are taken as given: [G] is the state of
    its loggers, [GetLogger] what looking a logger up does to that
    state, [isDefaultLogger] whether the logger of a name is a
    [*gol.DefaultLogger], [SetLevel] and [GetLevel] the two methods of
    such a logger. [EqualFold] is [strings.EqualFold]. *)
Context {Level G : Type}.
Variables LevelAll LevelTrace LevelDebug LevelInfo LevelWarn LevelError LevelOff : Level.
Variable LevelString : Level -> string.
Variable EqualFold : string -> string -> bool.
Variable GetLogger : string -> G -> G.
Variable isDefaultLogger : G -> string -> bool.
Variable SetLevel : string -> Level -> G -> G.
Variable GetLevel : G -> string -> Level.

(** The loop of [parseLogLevel] over the levels. *)
Fixpoint parseLogLevel_loop (level : string) (logLevels : list Level) : Level * bool :=
  match logLevels with
  | [] => (LevelOff, false)
  | l :: logLevels' =>
      if EqualFold level (LevelString l) then (l, true)
      else parseLogLevel_loop level logLevels'
  end.

(** [parseLogLevel] returns respective [gol.Level] of the given string. *)
Definition parseLogLevel (level : string) : Level * bool :=
  let logLevels :=
    [LevelAll; LevelTrace; LevelDebug; LevelInfo; LevelWarn; LevelError; LevelOff] in
  parseLogLevel_loop level logLevels.

(** [query.Get(key)]: the first value of the key, or the empty string. *)
Definition Values_Get (query : gmap string (list string)) (key : string) : string :=
  match query !! key with
  | Some (value :: _) => value
  | _ => ""
  end.

(** [ServeHTTP] of [LogTask] gets and sets logger level; [query] is
    [r.URL.Query()]. *)
Definition LogTask_ServeHTTP (query : gmap string (list string))
    (w : http.ResponseWriter) (g : G) : http.ResponseWriter * G :=
  (* Can have multiple loggers *)
  match query !! "logger" with
  | None => (w, g)
  | Some [] => (w, g)
  | Some loggers =>
      (* But only one level *)
      let level := Values_Get query "level" in
      let set :=
        if decide (level = "") then Some g
        else
          let '(logLevel, ok) := parseLogLevel level in
          if negb ok then None
          else
            Some (fold_left
                    (fun g name =>
                       let g := GetLogger name g in
                       if isDefaultLogger g name then SetLevel name logLevel g else g)
                    loggers g) in
      match set with
      | None => (http.Error "Level is not supported" http.StatusBadRequest w, g)
      | Some g =>
          (* Print level of each logger *)
          fold_left
            (fun '(w, g) name =>
               let g := GetLogger name g in
               if isDefaultLogger g name
               then (http.Write (name +:+ ": " +:+ LevelString (GetLevel g name) +:+ LF) w, g)
               else (w, g))
            loggers (w, g)
      end
  end.

End LogTask.

End core.

(** ** Package gomelon: running a command *)

Module gomelon.

Section Run.
(** [W] is the state of the process besides its standard error. *)
Context {W : Type}.

Record Process : Type := {
  stderr : list string;
  world : W
}.

(** The builtin [println] writes its operands, separated by spaces, as
    one line on standard error. *)
Definition println (operands : list string) (p : Process) : Process :=
  {| stderr := stderr p ++ [String.concat " " operands]; world := world p |}.

(** The fields of [Bootstrap] that [Run] and [printHelp] use. *)
Record Bootstrap (C : Type) : Type := {
  Arguments : list string;
  commands : list C
}.
Arguments Arguments {C} _.
Arguments commands {C} _.

(** The [Command] interface. *)
Class Command (C : Type) : Type := {
  Name : C -> string;
  Description : C -> string;
  Command_Run : C -> Bootstrap C -> Process -> option error * Process
}.

(** The method of [Application] that [Run] calls. *)
Class Application (A C : Type) : Type := {
  Initialize : A -> Bootstrap C -> Process -> Bootstrap C * Process
}.

Context {A C : Type} `{Command C} `{Application A C}.

Variable NewBootstrap : A -> Bootstrap C.

Definition printHelp (bootstrap : Bootstrap C) (p : Process) : Process :=
  let p := println ["Available commands:"] p in
  fold_left
    (fun p command => println [Name command; ":"; Description command] p)
    (commands bootstrap) p.

(** The loop over the commands in [Run]: the first command whose name
    equals the argument runs, and its result is returned. *)
Fixpoint Run_loop (bootstrap : Bootstrap C) (arg0 : string) (cmds : list C)
    (p : Process) : option (option error * Process) :=
  match cmds with
  | [] => None
  | command :: cmds' =>
      if String.eqb (Name command) arg0
      then Some (Command_Run command bootstrap p)
      else Run_loop bootstrap arg0 cmds' p
  end.

(** [Run] executes application with given arguments. *)
Definition Run (app : A) (args : list string) (p : Process) : option error * Process :=
  let bootstrap := NewBootstrap app in
  let bootstrap := {| Arguments := args; commands := commands bootstrap |} in
  let '(bootstrap, p) := Initialize app bootstrap p in
  let returned :=
    match args with
    | arg0 :: _ => Run_loop bootstrap arg0 (commands bootstrap) p
    | [] => None
    end in
  match returned with
  | Some result => result
  | None => (None, printHelp bootstrap p)
  end.

(** The lines [printHelp] writes. *)
Definition help_lines (cmds : list C) : list string :=
  "Available commands:"
  :: map (fun command => Name command +:+ " : " +:+ Description command) cmds.

End Run.

Arguments Arguments {C} _.
Arguments commands {C} _.

End gomelon.

(** ** Package server: wiring the filters *)

Module server.

(** The filters the factory handles: the [nil] filter, the two of this
    repository and those a request-log factory builds. *)
Inductive Filter : Type :=
| nilFilter
| noRequestLog
| recoveryFilter
| builtFilter (name : string).

(** Modelled from the spec: the [Handler] type and its [FilterChain]
    are not among the sources; the spec calls the chain an ordered
    pipeline of stages to which the core only appends. *)
Record Handler : Type := {
  FilterChain : list Filter
}.

(** The handlers are reached through pointers: the store maps a pointer
    to the handler it points to. *)
Definition Store : Type := nat -> Handler.

(** [h.FilterChain.Add(filter)] *)
Definition FilterChain_Add (filter : Filter) (h : nat) (store : Store) : Store :=
  <[h := {| FilterChain := FilterChain (store h) ++ [filter] |}]> store.

Section Factory.
Context {Environment : Type}.

(** What [polytype.Type.Value()] holds: nothing, a [RequestLogFactory]
    (given by its [Build]), or a value of another type. *)
Inductive PolyValue : Type :=
| NilValue
| RequestLogFactory (Build : Environment -> Filter * option error)
| OtherValue.

Record RequestLogConfiguration : Type := {
  Value : PolyValue
}.

Record commonFactory : Type := {
  RequestLog : RequestLogConfiguration
}.

(** [%#v] of the request-log configuration. *)
Variable fmt_GoSyntax : RequestLogConfiguration -> string.

Definition getRequestLog (f : commonFactory) (env : Environment)
  : Filter * option error :=
  match Value (RequestLog f) with
  | NilValue => (noRequestLog, None)
  | RequestLogFactory Build => Build env
  | OtherValue =>
      (nilFilter,
       Some ("server: unsupported request log " +:+ fmt_GoSyntax (RequestLog f)))
  end.

Definition recovery_NewFilter : Filter := recoveryFilter.

(** [AddFilters] adds request log and panic recovery to the filter chain
    of the given handlers. *)
Definition AddFilters (f : commonFactory) (env : Environment) (handlers : list nat)
    (store : Store) : option error * Store :=
  let '(requestLogFilter, err) := getRequestLog f env in
  match err with
  | Some e => (Some e, store)
  | None =>
      let recoveryFilter := recovery_NewFilter in
      (None,
       fold_left
         (fun store h =>
            let store := FilterChain_Add requestLogFilter h store in
            FilterChain_Add recoveryFilter h store)
         handlers store)
  end.

End Factory.

(** The chain of a handler ends with a request-log filter followed by
    the recovery filter. *)
Definition wired (store : Store) (h : nat) : Prop :=
  exists front requestLogFilter,
    FilterChain (store h) = front ++ [requestLogFilter; recoveryFilter].

End server.

(** ** The health-check reply, in the words of the specification *)

(** The part of the body for one check: its name and healthy flag, then
    its message when there is one, then its cause when there is one. *)
Definition report (entry : string * health.Result) : string :=
  let '(name, result) := entry in
  name +:+ ":" +:+ LF +:+ TAB +:+ "Healthy: "
       +:+ fmt_bool (health.Healthy result) +:+ LF
       +:+ (if decide (health.Message result = "") then ""
            else TAB +:+ "Message: " +:+ health.Message result +:+ LF)
       +:+ (match health.Cause result with
            | Some cause => TAB +:+ "Cause: " +:+ cause +:+ LF
            | None => ""
            end).

(** The reply [w'] to a request on a writer [w]: 501 and a fixed body
    with no check registered; otherwise 200 when all checks are healthy
    and 500 when one is not, with the report of each check. *)
Definition healthcheck_reply (registry : health.Registry)
    (w w' : http.ResponseWriter) : Prop :=
  match registry with
  | [] =>
      http.status w' = Some 501 /\
      http.body w' = http.body w +:+ "No health checks registered."
  | _ :: _ =>
      http.status w'
      = Some (if forallb (fun entry => health.Healthy entry.2) registry
              then 200 else 500) /\
      http.body w' = http.body w +:+ String.concat "" (map report registry)
  end.

(** ** The admin routes, in the words of the specification *)

(** The fixed routes under the admin path prefix. *)
Definition builtin_routes (prefix : string) (registry : health.Registry)
  : list (string * string * core.HttpHandler) :=
  [("GET", prefix +:+ "/ping", core.HandlerFunc_handleAdminPing);
   ("GET", prefix +:+ "/runtime", core.HandlerFunc_handleAdminRuntime);
   ("GET", prefix +:+ "/healthcheck", core.HealthCheckHandler registry);
   ("GET", prefix +:+ "/", core.AdminHandler prefix)].

(** The route of a task. *)
Definition task_route (prefix : string) (task : core.Task)
  : string * string * core.HttpHandler :=
  ("POST", prefix +:+ "/tasks/" +:+ core.Task_Name task, core.TaskHandler task).

(** The fixed patterns the [ServeMux] of package gows gets, under the
    context path. *)
Definition builtin_patterns (contextPath : string) : gset string :=
  {[ contextPath +:+ "/ping"; contextPath +:+ "/runtime";
     contextPath +:+ "/healthcheck"; contextPath +:+ "/" ]}.

(** The [ServeMux] once the four fixed handlers are registered in it. *)
Definition with_builtins (contextPath : string) (registry : health.Registry)
    (mux : gmap string gows.HttpHandler) : gmap string gows.HttpHandler :=
  <[contextPath +:+ "/" := gows.DefaultAdminHandler contextPath]>
    (<[contextPath +:+ "/healthcheck" := gows.DefaultHealthCheckHandler registry]>
       (<[contextPath +:+ "/runtime" := gows.HandlerFunc_handleAdminRuntime]>
          (<[contextPath +:+ "/ping" := gows.HandlerFunc_handleAdminPing]> mux))).

(** The link of the operational menu to a page. *)
Definition menu_link (contextPath uri : string) : string :=
  "href=" +:+ DQ +:+ contextPath +:+ uri +:+ DQ.

(** [part] occurs in [whole]. *)
Definition occurs_in (part whole : string) : Prop :=
  exists before after, whole = before +:+ part +:+ after.

(** ** Sample configurations *)

Module Sample.
Import gows.

Definition app_cfg : ConnectorConfiguration :=
  {| Addr := ":8080"; Type_ := "http"; CertFile := ""; KeyFile := "" |}.
Definition admin_cfg : ConnectorConfiguration :=
  {| Addr := ":8081"; Type_ := "http"; CertFile := ""; KeyFile := "" |}.
Definition tls_cfg : ConnectorConfiguration :=
  {| Addr := ":8443"; Type_ := "https";
     CertFile := "missing.pem"; KeyFile := "missing.key" |}.

Definition app_conn : DefaultServerConnector := newServerConnector 0 app_cfg.
Definition admin_conn : DefaultServerConnector := newServerConnector 1 admin_cfg.
Definition tls_conn : DefaultServerConnector := newServerConnector 0 tls_cfg.

Definition server_cfg : ServerConfiguration :=
  {| ApplicationConnectors := [app_cfg]; AdminConnectors := [admin_cfg] |}.

(** The server [BuildServer] assembles: application connectors, then
    admin connectors. *)
Definition two_conn_server : DefaultServer :=
  AddConnectors 1 (AdminConnectors server_cfg)
    (AddConnectors 0 (ApplicationConnectors server_cfg)
       (NewDefaultServer server_cfg)).

Definition one_conn_server : DefaultServer :=
  AddConnectors 0 [app_cfg] (NewDefaultServer server_cfg).

Definition failing_server : DefaultServer :=
  AddConnectors 1 [admin_cfg]
    (AddConnectors 0 [tls_cfg] (NewDefaultServer server_cfg)).

Definition in_use : error := "listen tcp :8081: bind: address already in use".
Definition config_required : error := "configuration file is required".
Definition no_cert : error := "open missing.pem: no such file or directory".

(** Every listener binds and serves. *)
Definition net_up : Net :=
  {| ListenAndServe := fun _ => Serves;
     ListenAndServeTLS := fun _ _ _ => Serves |}.

(** Port 8081 is taken; the other plain listeners serve; the
    certificate files do not exist. *)
Definition net_busy : Net :=
  {| ListenAndServe := fun s =>
       if String.eqb (Server_Addr s) ":8081" then Returns (Some in_use) else Serves;
     ListenAndServeTLS := fun _ _ _ => Returns (Some no_cert) |}.

(** Every listener has been closed and reports a clean stop. *)
Definition net_closed : Net :=
  {| ListenAndServe := fun _ => Returns None;
     ListenAndServeTLS := fun _ _ _ => Returns None |}.

(** A registry with one unhealthy and one healthy check. *)
Definition registry : health.Registry :=
  [("db", {| health.Healthy := false;
             health.Message := "connection refused";
             health.Cause := Some "dial tcp 10.0.0.7:5432: i/o timeout" |});
   ("cache", {| health.Healthy := true; health.Message := ""; health.Cause := None |})].

(** A bootstrap of the server command: the configuration is the name of
    a file, which must be given; the server is the one defined above. *)
Definition bootstrap (args : list string)
  : @Bootstrap unit string string DefaultServer :=
  {| Arguments := args;
     BuildConfiguration := fun arguments w =>
       match arguments with
       | [] => ("", Some config_required, w)
       | file :: _ => (file, None, w)
       end;
     BuildServer := fun _ _ w => (two_conn_server, None, w);
     run := fun _ _ w => (None, w);
     Application_Name := "sample";
     Application_Run := fun _ _ w => (None, w) |}.

Definition Server_Start (net : Net) (sched : list nat) (server : DefaultServer)
    (w : unit) : StartOutcome * unit :=
  ((Start net sched server).1, w).

(** Two commands and an application that registers the second. *)
Inductive command : Type := server_command | check_command.

#[global] Instance command_Command : @gomelon.Command unit command := {
  Name c := match c with server_command => "server" | check_command => "check" end;
  Description c :=
    match c with
    | server_command => "Runs the application as an HTTP server"
    | check_command => "Parses and validates the configuration file"
    end;
  Command_Run c b p :=
    match c with
    | server_command => (Some in_use, p)
    | check_command => (None, gomelon.println ["ok"] p)
    end
}.

#[global] Instance unit_Application : @gomelon.Application unit unit command := {
  Initialize _ b p :=
    ({| gomelon.Arguments := gomelon.Arguments b;
        gomelon.commands := gomelon.commands b ++ [check_command] |}, p)
}.

Definition NewBootstrap (app : unit) : gomelon.Bootstrap command :=
  {| gomelon.Arguments := []; gomelon.commands := [server_command] |}.

Definition console : @gomelon.Process unit :=
  {| gomelon.stderr := []; gomelon.world := tt |}.

(** A factory whose request-log value has an unsupported type, and one
    whose request-log factory builds a filter. *)
Definition unsupported_factory : @server.commonFactory unit :=
  {| server.RequestLog := {| server.Value := server.OtherValue |} |}.

Definition access_log_factory : @server.commonFactory unit :=
  {| server.RequestLog :=
       {| server.Value :=
            server.RequestLogFactory (fun _ => (server.builtFilter "access", None)) |} |}.

Definition fmt_GoSyntax (c : @server.RequestLogConfiguration unit) : string :=
  "server.RequestLogConfiguration{Type:polytype.Type{value:42}}".

Definition no_filters : server.Store := fun _ => {| server.FilterChain := [] |}.

(** The admin environment as [BuildServer] leaves it: a handler without
    routes, and the registry of the sample. *)
Definition admin_env : gows.AdminEnvironment :=
  {| gows.ServerHandler := Some gows.NewDefaultServerHandler;
     gows.HealthCheckRegistry := registry |}.

Definition admin_router : core.Router :=
  {| core.prefix := "/admin"; core.routes := [] |}.

(** A stand-in for package gol: levels are numbered in the order of
    [parseLogLevel], every logger is a [*gol.DefaultLogger], a logger
    has the level that was set last and INFO before that; names are
    compared as [strings.EqualFold] compares ASCII text. *)
Definition level_names : list string :=
  ["ALL"; "TRACE"; "DEBUG"; "INFO"; "WARN"; "ERROR"; "OFF"].

Definition LevelString (l : nat) : string := nth l level_names "".

Definition lower (c : Ascii.ascii) : Ascii.ascii :=
  let n := Ascii.nat_of_ascii c in
  if (65 <=? n) && (n <=? 90) then Ascii.ascii_of_nat (n + 32) else c.

Fixpoint fold_case (s : string) : string :=
  match s with
  | EmptyString => EmptyString
  | String c s' => String (lower c) (fold_case s')
  end.

Definition EqualFold (s t : string) : bool := String.eqb (fold_case s) (fold_case t).

Definition parseLogLevel : string -> nat * bool :=
  core.parseLogLevel 0 1 2 3 4 5 6 LevelString EqualFold.

Definition LogTask_ServeHTTP
  : gmap string (list string) -> http.ResponseWriter -> gmap string nat ->
    http.ResponseWriter * gmap string nat :=
  core.LogTask_ServeHTTP 0 1 2 3 4 5 6 LevelString EqualFold
    (fun _ g => g) (fun _ _ => true)
    (fun name l g => <[name := l]> g)
    (fun g name => default 3 (g !! name)).

End Sample.

(** * Properties *)

(** ** The receive on the result channel *)

Lemma Forall_middle {A : Type} (P : A -> Prop) (pre post : list A) (x : A) :
  Forall P (pre ++ x :: post) <-> Forall P pre /\ P x /\ Forall P post.
Proof.
  rewrite Forall_app. split.
  - intros [Hpre H]. apply Forall_cons_1 in H. tauto.
  - intros (Hpre & Hx & Hpost). split; [done|]. by constructor.
Qed.

Lemma append_assoc (s1 s2 s3 : string) : (s1 +:+ s2) +:+ s3 = s1 +:+ s2 +:+ s3.
Proof.
  induction s1 as [|a s1 IH]; [reflexivity|].
  change (String a ((s1 +:+ s2) +:+ s3) = String a (s1 +:+ s2 +:+ s3)).
  by f_equal.
Qed.

Lemma append_nil_r (s : string) : s +:+ "" = s.
Proof.
  induction s as [|a s IH]; [reflexivity|].
  change (String a (s +:+ "") = String a s). by f_equal.
Qed.

Section Receive.
Import gows.

Lemma senders_app (xs ys : list goroutine) :
  senders (xs ++ ys) = senders xs + senders ys.
Proof. unfold senders. by rewrite List.filter_app, length_app. Qed.

Lemma exited_app (xs ys : list goroutine) :
  exited (xs ++ ys) = exited xs + exited ys.
Proof. unfold exited. by rewrite List.filter_app, length_app. Qed.

Lemma senders_le_length (gs : list goroutine) : senders gs <= length gs.
Proof. unfold senders. apply List.filter_length_le. Qed.

(** A successful receive turns exactly one blocked sender into a
    finished goroutine, the one the index designates. *)
Lemma recv_nth_Some (k : nat) (gs gs' : list goroutine) (r : option error) :
  recv_nth k gs = Some (r, gs') ->
  exists pre c post,
    gs = pre ++ Sending c r :: post /\
    gs' = pre ++ Exited c r :: post /\
    senders pre = k.
Proof.
  revert k gs'. induction gs as [|g gs IH]; intros k gs' H; [discriminate|].
  destruct g as [c|c r0|c r0]; simpl in H.
  - destruct (recv_nth k gs) as [[r' gs'']|] eqn:E; [|discriminate].
    inversion H; subst. destruct (IH _ _ E) as (pre & c' & post & -> & -> & <-).
    exists (Serving c :: pre), c', post. auto.
  - destruct k as [|k].
    + inversion H; subst. exists [], c, gs. auto.
    + destruct (recv_nth k gs) as [[r' gs'']|] eqn:E; [|discriminate].
      inversion H; subst. destruct (IH _ _ E) as (pre & c' & post & -> & -> & <-).
      exists (Sending c r0 :: pre), c', post. auto.
  - destruct (recv_nth k gs) as [[r' gs'']|] eqn:E; [|discriminate].
    inversion H; subst. destruct (IH _ _ E) as (pre & c' & post & -> & -> & <-).
    exists (Exited c r0 :: pre), c', post. auto.
Qed.

(** The receive blocks only when the index is beyond the blocked
    senders. *)
Lemma recv_nth_None (k : nat) (gs : list goroutine) :
  recv_nth k gs = None -> senders gs <= k.
Proof.
  revert k. induction gs as [|g gs IH]; intros k H; [unfold senders; simpl; lia|].
  destruct g as [c|c r0|c r0]; simpl in H.
  - destruct (recv_nth k gs) as [[r' gs'']|] eqn:E; [discriminate|].
    apply IH in E. unfold senders in *. simpl. lia.
  - destruct k as [|k]; [discriminate|].
    destruct (recv_nth k gs) as [[r' gs'']|] eqn:E; [discriminate|].
    apply IH in E. unfold senders in *. simpl. lia.
  - destruct (recv_nth k gs) as [[r' gs'']|] eqn:E; [discriminate|].
    apply IH in E. unfold senders in *. simpl. lia.
Qed.

(** Receiving from a designated sender. *)
Lemma recv_nth_at (pre post : list goroutine) (c : DefaultServerConnector)
    (r : option error) :
  recv_nth (senders pre) (pre ++ Sending c r :: post)
  = Some (r, pre ++ Exited c r :: post).
Proof.
  induction pre as [|g pre IH]; [reflexivity|].
  destruct g as [c0|c0 r0|c0 r0].
  - change (senders (Serving c0 :: pre)) with (senders pre).
    cbn [app recv_nth]. by rewrite IH.
  - change (senders (Sending c0 r0 :: pre)) with (S (senders pre)).
    cbn [app recv_nth]. by rewrite IH.
  - change (senders (Exited c0 r0 :: pre)) with (senders pre).
    cbn [app recv_nth]. by rewrite IH.
Qed.

Lemma select_None (choice : nat) (gs : list goroutine) :
  select choice gs = None -> senders gs = 0.
Proof.
  unfold select. intros H. apply recv_nth_None in H.
  destruct (senders gs) as [|n] eqn:E; [done|].
  pose proof (Nat.mod_upper_bound choice (S n)). lia.
Qed.

Lemma select_is_Some (choice : nat) (gs : list goroutine) :
  0 < senders gs -> is_Some (select choice gs).
Proof.
  intros H. destruct (select choice gs) eqn:E; [eauto|].
  apply select_None in E. lia.
Qed.

(** Every blocked sender can be the one the receive meets: the choices
of the scheduler cover all orders of delivery. *)
Lemma select_any (pre post : list goroutine) (c : DefaultServerConnector)
    (r : option error) :
  select (senders pre) (pre ++ Sending c r :: post)
  = Some (r, pre ++ Exited c r :: post).
Proof.
  unfold select. rewrite Nat.mod_small; [apply recv_nth_at|].
  rewrite senders_app. unfold senders at 3. simpl. lia.
Qed.

End Receive.

(** ** Start and Stop of the server *)

Section ServerStart.
Import gows.

Lemma launch_Returns (net : Net) (c : DefaultServerConnector) (r : option error) :
  start net c = Returns r -> launch net c = Sending c r.
Proof. unfold launch. by intros ->. Qed.

Lemma launch_not_exited (net : Net) (c : DefaultServerConnector) :
  nil_if_exited (launch net c).
Proof. unfold launch, nil_if_exited. destruct (start net c); discriminate. Qed.

Lemma exited_launch (net : Net) (cs : list DefaultServerConnector) :
  exited (map (launch net) cs) = 0.
Proof.
  induction cs as [|c cs IH]; [reflexivity|].
  unfold exited in *. simpl. unfold launch at 1. by destruct (start net c).
Qed.

Lemma settle_idle (gs : list goroutine) : senders gs = 0 -> map settle gs = gs.
Proof.
  induction gs as [|g gs IH]; [reflexivity|].
  unfold senders in *. destruct g; simpl; intros H; try discriminate;
    by rewrite IH.
Qed.

Lemma exited_senders_le (gs : list goroutine) :
  exited gs + senders gs <= length gs.
Proof.
  induction gs as [|g gs IH]; [reflexivity|].
  unfold exited, senders in *. destruct g; simpl; lia.
Qed.

Lemma delivered_from_refl (gs : list goroutine) : Forall2 delivered_from gs gs.
Proof. induction gs; constructor; auto. by left. Qed.

Lemma delivered_from_trans (g0 g1 g2 : goroutine) :
  delivered_from g0 g1 -> delivered_from g1 g2 -> delivered_from g0 g2.
Proof.
  intros [->|(c & r & -> & ->)] H; [done|].
  destruct H as [->|(c' & r' & H & _)]; [|discriminate].
  right. eauto.
Qed.

Lemma delivered_from_recv (pre post : list goroutine) (c : DefaultServerConnector)
    (r : option error) :
  Forall2 delivered_from (pre ++ Sending c r :: post) (pre ++ Exited c r :: post).
Proof.
  apply Forall2_app; [apply delivered_from_refl|].
  constructor; [right; eauto | apply delivered_from_refl].
Qed.

(** When every pending result is [nil] and there are as many blocked
    senders as iterations, the loop receives them all and returns
    [nil]. *)
Lemma Start_loop_all_nil (server : DefaultServer) (i : nat) :
  forall (sched : list nat) (gs : list goroutine) (st : nat),
    senders gs = i ->
    Forall nil_if_sending gs ->
    Start_loop server i sched {| goroutines := gs; stops := st |}
    = (Returned None, {| goroutines := map settle gs; stops := st |}).
Proof.
  induction i as [|i IH]; intros sched gs st Hn Hnil.
  - simpl. by rewrite settle_idle.
  - cbn [Start_loop goroutines stops].
    destruct (select_is_Some (hd 0 sched) gs) as [[r gs'] E]; [lia|].
    rewrite E. apply recv_nth_Some in E as (pre & c & post & -> & -> & _).
    assert (r = None) as ->.
    { apply Forall_middle in Hnil as (_ & H & _). by apply (H c). }
    rewrite IH.
    + by rewrite !map_app.
    + rewrite senders_app in *. unfold senders in *. simpl in *. lia.
    + apply Forall_middle in Hnil as (? & _ & ?). apply Forall_middle.
      repeat split; auto. intros ? ? ?. discriminate.
Qed.

(** The invariant of the receiving loop. *)
Lemma Start_loop_inv (server : DefaultServer) (i : nat) :
  forall (sched : list nat) (gs : list goroutine) (st : nat),
    Forall nil_if_exited gs ->
    let '(out, p) := Start_loop server i sched {| goroutines := gs; stops := st |} in
    Forall2 delivered_from gs (goroutines p) /\
    match out with
    | Returned None =>
        exited (goroutines p) = exited gs + i /\ stops p = st /\
        Forall nil_if_exited (goroutines p)
    | Returned (Some e) =>
        stops p = S st /\
        exists pre c post,
          goroutines p = pre ++ Exited c (Some e) :: post /\
          Forall nil_if_exited (pre ++ post)
    | Blocked =>
        senders (goroutines p) = 0 /\ stops p = st /\
        Forall nil_if_exited (goroutines p)
    end.
Proof.
  induction i as [|i IH]; intros sched gs st Hnil.
  - simpl. split; [apply delivered_from_refl|]. auto.
  - cbn [Start_loop goroutines stops].
    destruct (select (hd 0 sched) gs) as [[r gs']|] eqn:E.
    + apply recv_nth_Some in E as (pre & c & post & -> & -> & _).
      assert (Forall nil_if_exited (pre ++ post)) as Hpp.
      { apply Forall_middle in Hnil. rewrite Forall_app. tauto. }
      destruct r as [e|].
      * simpl. split; [apply delivered_from_recv|]. split; [done|]. eauto.
      * specialize (IH (tl sched) (pre ++ Exited c None :: post) st).
        destruct (Start_loop server i (tl sched) _) as [out p].
        destruct IH as [HF Hout].
        { apply Forall_app in Hpp as [? ?]. apply Forall_middle.
          repeat split; auto. intros ? ? [= _ <-]. done. }
        split.
        { pose proof (delivered_from_recv pre post c None) as H0.
          clear -H0 HF. revert HF.
          generalize (goroutines p), (pre ++ Exited c None :: post), H0.
          clear. intros l2 l1 H; revert l2.
          induction H; intros l2 H2; inversion H2; subst; constructor;
            eauto using delivered_from_trans. }
        destruct out as [[e|]|]; auto.
        destruct Hout as (He & ? & ?). repeat split; auto.
        rewrite He, !exited_app. unfold exited. simpl. lia.
    + simpl. apply select_None in E. split; [apply delivered_from_refl|]. auto.
Qed.

End ServerStart.

Section ServerClaims.
Import gows.

(** C1. When the first result delivered on the channel is the non-nil
    error [e] that the [start()] of a connector [c] returned,
    [Start] returns exactly [e], [Stop] has been entered exactly
    once, and nothing but that one result was received. *)
Theorem Start_first_error_wins (net : Net) (sched : list nat) (server : DefaultServer)
    (pre post : list DefaultServerConnector) (c : DefaultServerConnector) (e : error) :
  Connectors server = pre ++ c :: post ->
  start net c = Returns (Some e) ->
  hd 0 sched mod senders (map (launch net) (Connectors server))
    = senders (map (launch net) pre) ->
  Start net sched server
  = (Returned (Some e),
     {| goroutines :=
          map (launch net) pre ++ Exited c (Some e) :: map (launch net) post;
        stops := 1 |}).
Proof.
  intros Hcs Hc Hfirst. unfold Start. rewrite Hcs in *.
  rewrite length_app. simpl length. rewrite Nat.add_succ_r.
  cbn [Start_loop goroutines stops]. unfold select. rewrite Hfirst.
  rewrite map_app. simpl map. rewrite (launch_Returns _ _ _ Hc).
  by rewrite recv_nth_at.
Qed.

Lemma Start_first_error_wins_witness :
  Connectors Sample.two_conn_server = [Sample.app_conn] ++ Sample.admin_conn :: [] /\
  start Sample.net_busy Sample.admin_conn = Returns (Some Sample.in_use) /\
  Start Sample.net_busy [0] Sample.two_conn_server
  = (Returned (Some Sample.in_use),
     {| goroutines := [Serving Sample.app_conn;
                       Exited Sample.admin_conn (Some Sample.in_use)];
        stops := 1 |}).
Proof.
  split; [reflexivity|]. split; [reflexivity|].
  apply (Start_first_error_wins Sample.net_busy [0] Sample.two_conn_server
           [Sample.app_conn] [] Sample.admin_conn Sample.in_use);
    reflexivity.
Defined.

(** The scenario of the specification: one connector fails at once and
    all the others serve. Whatever the scheduler chooses, [Start]
    returns the error of that connector. *)
Lemma Start_only_failure (net : Net) (sched : list nat) (server : DefaultServer)
    (pre post : list DefaultServerConnector) (c : DefaultServerConnector) (e : error) :
  Connectors server = pre ++ c :: post ->
  start net c = Returns (Some e) ->
  (forall c', c' ∈ pre ++ post -> start net c' = Serves) ->
  Start net sched server
  = (Returned (Some e),
     {| goroutines := map Serving pre ++ Exited c (Some e) :: map Serving post;
        stops := 1 |}).
Proof.
  intros Hcs Hc Hothers.
  assert (forall cs, (forall c', c' ∈ cs -> start net c' = Serves) ->
                     map (launch net) cs = map Serving cs) as Hserving.
  { intros cs Hcs0. apply map_ext_in. intros c' Hc'. unfold launch.
    rewrite Hcs0; [done|]. by apply list_elem_of_In. }
  assert (forall cs, senders (map Serving cs) = 0) as Hnone.
  { induction cs as [|c0 cs IH]; [done|]. exact IH. }
  unfold Start. rewrite Hcs, length_app. simpl length. rewrite Nat.add_succ_r.
  cbn [Start_loop goroutines stops]. unfold select.
  rewrite map_app. simpl map. rewrite (launch_Returns _ _ _ Hc).
  rewrite (Hserving pre), (Hserving post);
    [|intros c' Hc'; apply Hothers; rewrite elem_of_app; tauto..].
  replace (hd 0 sched mod _) with (senders (map Serving pre)).
  - by rewrite recv_nth_at.
  - rewrite senders_app, Hnone. unfold senders. cbn [List.filter is_sending length].
    fold (senders (map Serving post)). rewrite Hnone.
    symmetry. apply Nat.mod_1_r.
Qed.

(** C2, as stated, fails: with two connectors that both fail, [Start]
    returns after the first error and the goroutine of the other
    connector stays blocked on the channel, its result unobserved. *)
Lemma Start_leaves_result_unreceived :
  (Start Sample.net_busy [0] Sample.failing_server).1
  = Returned (Some Sample.no_cert) /\
  goroutines (Start Sample.net_busy [0] Sample.failing_server).2
  = [Exited Sample.tls_conn (Some Sample.no_cert);
     Sending Sample.admin_conn (Some Sample.in_use)] /\
  ~ all_results_consumed Sample.failing_server
      (Start Sample.net_busy [0] Sample.failing_server).2.
Proof.
  split; [reflexivity|]. split; [reflexivity|].
  intros [H _]. vm_compute in H. discriminate H.
Qed.

(** What the receiving loop has received when it ends, in terms of the
    receives on the channel. *)
Lemma Start_loop_receives (server : DefaultServer) (i : nat) :
  forall (sched : list nat) (gs : list goroutine) (st : nat),
    match Start_loop server i sched {| goroutines := gs; stops := st |} with
    | (Returned (Some e), p) =>
        stops p = S st /\
        exists k,
          k < i /\
          receive (S k) sched gs = Some (replicate k None ++ [Some e], goroutines p)
    | (Returned None, p) =>
        stops p = st /\
        receive i sched gs = Some (replicate i None, goroutines p)
    | (Blocked, p) =>
        stops p = st /\
        exists k,
          k < i /\
          receive k sched gs = Some (replicate k None, goroutines p) /\
          select (hd 0 (drop k sched)) (goroutines p) = None
    end.
Proof.
  induction i as [|i IH]; intros sched gs st.
  - simpl. done.
  - cbn [Start_loop goroutines stops].
    destruct (select (hd 0 sched) gs) as [[[e|] gs']|] eqn:E.
    + simpl. split; [done|]. exists 0. split; [lia|]. simpl. by rewrite E.
    + specialize (IH (tl sched) gs' st).
      destruct (Start_loop server i (tl sched) _) as [[[e|]|] p].
      * destruct IH as (? & k & ? & Hk). split; [done|].
        exists (S k). split; [lia|].
        change (receive (S (S k)) sched gs)
          with (match select (hd 0 sched) gs with
                | None => None
                | Some (r, gs1) =>
                    match receive (S k) (tl sched) gs1 with
                    | None => None
                    | Some (rs, gs2) => Some (r :: rs, gs2)
                    end
                end).
        by rewrite E, Hk.
      * destruct IH as (? & Hi). split; [done|].
        change (receive (S i) sched gs)
          with (match select (hd 0 sched) gs with
                | None => None
                | Some (r, gs1) =>
                    match receive i (tl sched) gs1 with
                    | None => None
                    | Some (rs, gs2) => Some (r :: rs, gs2)
                    end
                end).
        by rewrite E, Hi.
      * destruct IH as (? & k & ? & Hk & Hblock). split; [done|].
        exists (S k). split; [lia|]. split.
        -- change (receive (S k) sched gs)
             with (match select (hd 0 sched) gs with
                   | None => None
                   | Some (r, gs1) =>
                       match receive k (tl sched) gs1 with
                       | None => None
                       | Some (rs, gs2) => Some (r :: rs, gs2)
                       end
                   end).
           by rewrite E, Hk.
        -- destruct sched as [|choice sched]; simpl in *;
             [by rewrite drop_nil in Hblock|done].
    + simpl. split; [done|]. exists 0. split; [lia|]. done.
Qed.

(** C2, amended. [Start] observes results only up to and including
    the first non-nil error. If it returns an error [e], then for some
    [k] the first [k] receives gave [nil], the next one gave [e], and
    the goroutines are exactly as that receive left them: [Start]
    returned without receiving anything further, [k + 1] goroutines
    have finished and every other one is as it was launched, blocked
    on its send if its [start()] had returned. If [Start] returns
    [nil], it made all N receives, all gave [nil], and no goroutine is
    blocked on the channel. If [Start] blocks, the receives before
    gave [nil] and the next one finds no sender. *)
Theorem Start_observes_until_first_error (net : Net) (sched : list nat)
    (server : DefaultServer) :
  let '(out, p) := Start net sched server in
  Forall2 delivered_from (map (launch net) (Connectors server)) (goroutines p) /\
  match out with
  | Returned None =>
      receive (length (Connectors server)) sched
        (map (launch net) (Connectors server))
      = Some (replicate (length (Connectors server)) None, goroutines p) /\
      all_results_consumed server p /\ Forall nil_if_exited (goroutines p)
  | Returned (Some e) =>
      stops p = 1 /\
      (exists k,
          k < length (Connectors server) /\
          receive (S k) sched (map (launch net) (Connectors server))
          = Some (replicate k None ++ [Some e], goroutines p)) /\
      exists pre c post,
        goroutines p = pre ++ Exited c (Some e) :: post /\
        Forall nil_if_exited (pre ++ post)
  | Blocked =>
      (exists k,
          k < length (Connectors server) /\
          receive k sched (map (launch net) (Connectors server))
          = Some (replicate k None, goroutines p) /\
          select (hd 0 (drop k sched)) (goroutines p) = None) /\
      senders (goroutines p) = 0 /\ Forall nil_if_exited (goroutines p)
  end.
Proof.
  unfold Start.
  pose proof (Start_loop_inv server (length (Connectors server)) sched
                (map (launch net) (Connectors server)) 0) as H.
  pose proof (Start_loop_receives server (length (Connectors server)) sched
                (map (launch net) (Connectors server)) 0) as Hrecv.
  destruct (Start_loop server _ sched _) as [out p].
  destruct H as [HF Hout].
  { apply Forall_forall. intros g Hg. apply in_map_iff in Hg as (c & <- & _).
    apply launch_not_exited. }
  split; [done|]. destruct out as [[e|]|].
  - destruct Hout as (? & Hform). destruct Hrecv as (_ & Hk). done.
  - destruct Hout as (He & _ & Hnil). destruct Hrecv as (_ & Hall).
    split; [done|]. split; [|done].
    rewrite exited_launch in He. simpl in He.
    pose proof (Forall2_length HF) as Hlen. rewrite length_map in Hlen.
    pose proof (exited_senders_le (goroutines p)).
    unfold all_results_consumed. lia.
  - destruct Hrecv as (_ & Hk). tauto.
Qed.

(** The receives of a run that ends with an error leave behind every
    sender the schedule had not reached: with the TLS connector failing
    first, the admin connector, whose [start()] has returned as well,
    is still blocked on its send. *)
Example Start_receives_nothing_after_error :
  receive 1 [0] (map (launch Sample.net_busy) (Connectors Sample.failing_server))
  = Some ([Some Sample.no_cert],
          goroutines (Start Sample.net_busy [0] Sample.failing_server).2) /\
  receive 2 [0] (map (launch Sample.net_busy) (Connectors Sample.failing_server))
  = Some ([Some Sample.no_cert; Some Sample.in_use],
          [Exited Sample.tls_conn (Some Sample.no_cert);
           Exited Sample.admin_conn (Some Sample.in_use)]).
Proof. split; reflexivity. Qed.

(** C3. [Stop] closes nothing: on a server whose connector is
    serving, [Stop] returns [nil] and the connector is still serving
    afterwards; only the count of calls has changed. *)
Theorem Stop_closes_nothing :
  Start Sample.net_up [] Sample.one_conn_server
  = (Blocked, {| goroutines := [Serving Sample.app_conn]; stops := 0 |}) /\
  Stop Sample.one_conn_server
    {| goroutines := [Serving Sample.app_conn]; stops := 0 |}
  = (None, {| goroutines := [Serving Sample.app_conn]; stops := 1 |}).
Proof. split; reflexivity. Qed.

(** The part of C3 that holds: [Stop] never fails, and a second call
    changes nothing but the count of calls. *)
Lemma Stop_twice (server : DefaultServer) (p : Proc) :
  let '(err1, p1) := Stop server p in
  let '(err2, p2) := Stop server p1 in
  err1 = None /\ err2 = None /\
  goroutines p2 = goroutines p /\ stops p2 = S (S (stops p)).
Proof. simpl. auto. Qed.

(** C4. When the [start()] of every connector returns [nil], [Start]
    returns [nil], whatever the order of delivery, after all N
    results were received; [Stop] is not called. *)
Theorem Start_all_nil (net : Net) (sched : list nat) (server : DefaultServer) :
  (forall c, c ∈ Connectors server -> start net c = Returns None) ->
  Start net sched server
  = (Returned None,
     {| goroutines := map (fun c => Exited c None) (Connectors server);
        stops := 0 |}).
Proof.
  intros Hall. unfold Start.
  assert (map (launch net) (Connectors server)
          = map (fun c => Sending c None) (Connectors server)) as ->.
  { apply map_ext_in. intros c Hc. apply launch_Returns, Hall.
    by apply list_elem_of_In. }
  rewrite Start_loop_all_nil.
  - by rewrite map_map.
  - clear Hall. unfold senders.
    induction (Connectors server) as [|c cs IH]; simpl; [done|]. by rewrite IH.
  - apply Forall_forall. intros g Hg. apply in_map_iff in Hg as (c & <- & _).
    intros ? ? [= _ <-]. done.
Qed.

Lemma Start_all_nil_witness :
  (forall c, c ∈ Connectors Sample.two_conn_server ->
             start Sample.net_closed c = Returns None) /\
  Start Sample.net_closed [1; 0] Sample.two_conn_server
  = (Returned None,
     {| goroutines := [Exited Sample.app_conn None; Exited Sample.admin_conn None];
        stops := 0 |}).
Proof.
  assert (forall c, c ∈ Connectors Sample.two_conn_server ->
                    start Sample.net_closed c = Returns None) as H.
  { intros c Hc. unfold start. by destruct (String.eqb _ _). }
  split; [exact H|].
  exact (Start_all_nil Sample.net_closed [1; 0] Sample.two_conn_server H).
Defined.

End ServerClaims.


(** ** The health-check handler *)

Section HealthCheck.
Import http health.

Lemma Write_status (bytes : string) (w : ResponseWriter) :
  status (Write bytes w) = Some (default StatusOK (status w)).
Proof. unfold Write, WriteHeader. destruct (status w) eqn:E; simpl; by rewrite ?E. Qed.

Lemma Write_body (bytes : string) (w : ResponseWriter) :
  body (Write bytes w) = body w +:+ bytes.
Proof. unfold Write, WriteHeader. destruct (status w) eqn:E; simpl; by rewrite ?E. Qed.

Lemma Header_Set_status (k v : string) (w : ResponseWriter) :
  status (Header_Set k v w) = status w.
Proof. done. Qed.

Lemma Header_Set_body (k v : string) (w : ResponseWriter) :
  body (Header_Set k v w) = body w.
Proof. done. Qed.

Lemma writeResult_status (w : ResponseWriter) (entry : string * Result) :
  status (core.writeResult w entry) = Some (default StatusOK (status w)).
Proof.
  destruct entry as [name result]. unfold core.writeResult.
  destruct (Cause result), (decide (Message result = ""));
    rewrite ?Write_status; by destruct (status w).
Qed.

Lemma writeResult_body (w : ResponseWriter) (entry : string * Result) :
  body (core.writeResult w entry) = body w +:+ report entry.
Proof.
  destruct entry as [name result]. unfold core.writeResult, report.
  destruct (Cause result), (decide (Message result = ""));
    rewrite ?Write_body, ?append_assoc, ?append_nil_r; done.
Qed.

Lemma writeResults_status (results : list (string * Result)) (w : ResponseWriter)
    (code : nat) :
  status w = Some code -> status (fold_left core.writeResult results w) = Some code.
Proof.
  revert w. induction results as [|entry results IH]; intros w Hw; [done|].
  simpl. apply IH. by rewrite writeResult_status, Hw.
Qed.

Lemma writeResults_body (results : list (string * Result)) (w : ResponseWriter) :
  body (fold_left core.writeResult results w)
  = body w +:+ String.concat "" (map report results).
Proof.
  revert w. induction results as [|entry results IH]; intros w.
  - simpl. by rewrite append_nil_r.
  - cbn [fold_left map]. rewrite IH, writeResult_body, append_assoc.
    f_equal. destruct results; simpl; by rewrite ?append_nil_r.
Qed.

Lemma isAllHealthy_forallb (results : list (string * Result)) :
  core.isAllHealthy results = forallb (fun entry => Healthy entry.2) results.
Proof.
  induction results as [|[name result] results IH]; [done|].
  simpl. rewrite IH. by destruct (Healthy result).
Qed.

Lemma WriteHeader_status (code : nat) (w : ResponseWriter) :
  status w = None -> status (WriteHeader code w) = Some code.
Proof. unfold WriteHeader. by intros ->. Qed.

Lemma WriteHeader_body (code : nat) (w : ResponseWriter) :
  body (WriteHeader code w) = body w.
Proof. unfold WriteHeader. by destruct (status w). Qed.

Lemma HealthCheckHandler_reply (registry : Registry) (w : ResponseWriter) :
  status w = None ->
  healthcheck_reply registry w (core.HealthCheckHandler_ServeHTTP registry w).
Proof.
  intros Hw. unfold core.HealthCheckHandler_ServeHTTP, RunHealthChecks.
  set (w2 := Header_Set "Content-Type" _ _).
  assert (status w2 = None) as Hw2 by done.
  assert (body w2 = body w) as Hb2 by done.
  clearbody w2.
  destruct registry as [|entry registry].
  - cbn [length Nat.eqb healthcheck_reply].
    rewrite Write_status, Write_body, WriteHeader_body, Hb2.
    by rewrite (WriteHeader_status _ _ Hw2).
  - cbn [length Nat.eqb healthcheck_reply]. rewrite writeResults_body.
    rewrite isAllHealthy_forallb.
    destruct (forallb _ (entry :: registry)); cbn [negb].
    + split; [|by rewrite Hb2]. cbn [fold_left]. apply writeResults_status.
      by rewrite writeResult_status, Hw2.
    + split.
      * apply writeResults_status. by apply WriteHeader_status.
      * by rewrite WriteHeader_body, Hb2.
Qed.

Lemma DefaultHealthCheckHandler_same :
  gows.DefaultHealthCheckHandler_ServeHTTP = core.HealthCheckHandler_ServeHTTP.
Proof. reflexivity. Qed.

Example HealthCheckHandler_sample :
  let w := core.HealthCheckHandler_ServeHTTP Sample.registry NewResponseWriter in
  status w = Some 500 /\
  body w = "db:" +:+ LF +:+ TAB +:+ "Healthy: false" +:+ LF
           +:+ TAB +:+ "Message: connection refused" +:+ LF
           +:+ TAB +:+ "Cause: dial tcp 10.0.0.7:5432: i/o timeout" +:+ LF
           +:+ "cache:" +:+ LF +:+ TAB +:+ "Healthy: true" +:+ LF.
Proof. split; reflexivity. Qed.

(** C5. On a writer whose header has not been written, the handler of
    [/healthcheck] (in both packages) replies 501 with the body
    [No health checks registered.] when no check is registered;
    otherwise it replies 500 when a check is unhealthy and 200 when all
    are healthy, and the body lists for each check its name and healthy
    flag, its message when it has one and its cause when it has one. *)
Theorem healthcheck_status_and_body (registry : Registry) (w : ResponseWriter) :
  status w = None ->
  healthcheck_reply registry w (core.HealthCheckHandler_ServeHTTP registry w) /\
  healthcheck_reply registry w (gows.DefaultHealthCheckHandler_ServeHTTP registry w).
Proof.
  intros Hw. rewrite DefaultHealthCheckHandler_same.
  split; by apply HealthCheckHandler_reply.
Qed.

Lemma healthcheck_status_and_body_witness :
  status NewResponseWriter = None /\
  healthcheck_reply Sample.registry NewResponseWriter
    (core.HealthCheckHandler_ServeHTTP Sample.registry NewResponseWriter) /\
  healthcheck_reply Sample.registry NewResponseWriter
    (gows.DefaultHealthCheckHandler_ServeHTTP Sample.registry NewResponseWriter).
Proof.
  split; [reflexivity|].
  apply (healthcheck_status_and_body Sample.registry NewResponseWriter).
  reflexivity.
Defined.

End HealthCheck.

(** ** The server command *)


Section ServerCommandClaims.
Import gows.
Context {W Configuration Environment Server : Type}.
Variable NewEnvironment : string -> Environment.
Variable Server_Start : Server -> W -> StartOutcome * W.


End ServerCommandClaims.


(** ** Running a command *)

Section RunClaims.
Import gomelon.
Context {W A C : Type} `{!@Command W C} `{!@Application W A C}.
Variable NewBootstrap : A -> Bootstrap C.

Lemma println_line (operands : list string) (p : @Process W) :
  println operands p
  = {| stderr := stderr p ++ [String.concat " " operands]; world := world p |}.
Proof. reflexivity. Qed.

Lemma printHelp_lines (bootstrap : Bootstrap C) (p : @Process W) :
  printHelp bootstrap p
  = {| stderr := stderr p ++ help_lines (commands bootstrap); world := world p |}.
Proof.
  unfold printHelp, help_lines.
  assert (forall (cmds : list C) (q : @Process W),
            fold_left
              (fun p command => println [Name command; ":"; Description command] p)
              cmds q
            = {| stderr :=
                   stderr q
                   ++ map (fun command => Name command +:+ " : " +:+ Description command)
                        cmds;
                 world := world q |}) as Hfold.
  { induction cmds as [|c cmds IH]; intros q.
    - simpl. rewrite app_nil_r. by destruct q.
    - cbn [fold_left map]. rewrite IH. unfold println. cbn [stderr world].
      by rewrite <- app_assoc. }
  rewrite Hfold. unfold println. cbn [stderr world]. by rewrite <- app_assoc.
Qed.

(** The loop runs the first command whose name is the argument. *)
Lemma Run_loop_first (bootstrap : Bootstrap C) (arg0 : string)
    (pre post : list C) (command : C) (p : @Process W) :
  Name command = arg0 ->
  (forall c, c ∈ pre -> Name c <> arg0) ->
  Run_loop bootstrap arg0 (pre ++ command :: post) p
  = Some (Command_Run command bootstrap p).
Proof.
  intros Hname Hpre. induction pre as [|c pre IH]; simpl.
  - apply String.eqb_eq in Hname. by rewrite Hname.
  - assert (Name c <> arg0) as Hc by (apply Hpre; left).
    apply String.eqb_neq in Hc. rewrite Hc. apply IH.
    intros c' Hc'. apply Hpre. by right.
Qed.

(** The loop ends without running a command when no name is the argument. *)
Lemma Run_loop_none (bootstrap : Bootstrap C) (arg0 : string) (cmds : list C)
    (p : @Process W) :
  (forall c, c ∈ cmds -> Name c <> arg0) ->
  Run_loop bootstrap arg0 cmds p = None.
Proof.
  intros Hcmds. induction cmds as [|c cmds IH]; simpl; [done|].
  assert (Name c <> arg0) as Hc by (apply Hcmds; left).
  apply String.eqb_neq in Hc. rewrite Hc. apply IH.
  intros c' Hc'. apply Hcmds. by right.
Qed.

(** C7. [Run] selects a command by exact equality of its name with the
    first argument, the first registered one winning: that command is
    invoked and its result returned. With no argument, or a first
    argument that is the name of no registered command, [Run] prints
    the title line and the name and description of every registered
    command, and returns [nil]. *)
Theorem Run_selects_by_exact_name (app : A) (args : list string) (p p1 : @Process W)
    (bootstrap : Bootstrap C) :
  Initialize app
    {| Arguments := args; commands := commands (NewBootstrap app) |} p
  = (bootstrap, p1) ->
  (forall arg0 rest pre command post,
      args = arg0 :: rest ->
      commands bootstrap = pre ++ command :: post ->
      Name command = arg0 ->
      (forall c, c ∈ pre -> Name c <> arg0) ->
      Run NewBootstrap app args p = Command_Run command bootstrap p1) /\
  ((args = [] \/ forall c, c ∈ commands bootstrap -> Some (Name c) <> head args) ->
   Run NewBootstrap app args p
   = (None, {| stderr := stderr p1 ++ help_lines (commands bootstrap);
               world := world p1 |})).
Proof.
  intros Hinit. unfold Run. rewrite Hinit. split.
  - intros arg0 rest pre command post -> Hcmds Hname Hpre.
    rewrite Hcmds. by rewrite (Run_loop_first _ _ _ _ _ _ Hname Hpre).
  - intros Hnone. rewrite printHelp_lines.
    destruct args as [|arg0 rest]; [done|].
    destruct Hnone as [?|Hnone]; [done|].
    rewrite Run_loop_none; [done|].
    intros c Hc Heq. apply (Hnone c Hc). simpl. by rewrite Heq.
Qed.

End RunClaims.

Lemma Run_selects_by_exact_name_witness :
  gomelon.Initialize tt
    {| gomelon.Arguments := ["check"; "app.yaml"];
       gomelon.commands := gomelon.commands (Sample.NewBootstrap tt) |}
    Sample.console
  = ({| gomelon.Arguments := ["check"; "app.yaml"];
        gomelon.commands := [Sample.server_command; Sample.check_command] |},
     Sample.console) /\
  gomelon.Run Sample.NewBootstrap tt ["check"; "app.yaml"] Sample.console
  = (None, {| gomelon.stderr := ["ok"]; gomelon.world := tt |}).
Proof.
  split; [reflexivity|].
  refine (proj1 (Run_selects_by_exact_name Sample.NewBootstrap tt
                   ["check"; "app.yaml"] Sample.console Sample.console
                   {| gomelon.Arguments := ["check"; "app.yaml"];
                      gomelon.commands :=
                        [Sample.server_command; Sample.check_command] |}
                   eq_refl)
                "check" ["app.yaml"] [Sample.server_command]
                Sample.check_command [] eq_refl eq_refl eq_refl _).
  intros c Hc. apply list_elem_of_singleton in Hc. subst c. discriminate.
Defined.

Example Run_unknown_command :
  gomelon.Run Sample.NewBootstrap tt ["serve"] Sample.console
  = (None,
     {| gomelon.stderr :=
          ["Available commands:";
           "server : Runs the application as an HTTP server";
           "check : Parses and validates the configuration file"];
        gomelon.world := tt |}).
Proof. reflexivity. Qed.

Example Run_no_argument :
  gomelon.Run Sample.NewBootstrap tt [] Sample.console
  = gomelon.Run Sample.NewBootstrap tt ["Server"] Sample.console.
Proof. reflexivity. Qed.

(** ** Wiring the filters *)

Section FilterClaims.
Import server.
Context {Environment : Type}.
Variable fmt_GoSyntax : @RequestLogConfiguration Environment -> string.

Lemma FilterChain_Add_chain (filter : Filter) (h h' : nat) (store : Store) :
  FilterChain (FilterChain_Add filter h store h')
  = if decide (h = h') then FilterChain (store h) ++ [filter]
    else FilterChain (store h').
Proof.
  unfold FilterChain_Add, insert, fn_insert.
  by destruct (decide (h = h')).
Qed.

(** The loop of [AddFilters] appends the pair of filters to the chain
    of a handler once for each time the handler occurs in the list. *)
Lemma AddFilters_loop (requestLogFilter : Filter) (handlers : list nat) :
  forall (store : Store) (h : nat),
    FilterChain
      (fold_left
         (fun store h =>
            let store := FilterChain_Add requestLogFilter h store in
            FilterChain_Add recoveryFilter h store)
         handlers store h)
    = FilterChain (store h)
      ++ List.concat (List.repeat [requestLogFilter; recoveryFilter]
                        (count_occ Nat.eq_dec handlers h)).
Proof.
  induction handlers as [|h0 handlers IH]; intros store h.
  - simpl. by rewrite app_nil_r.
  - cbn [fold_left count_occ]. rewrite IH, !FilterChain_Add_chain.
    destruct (Nat.eq_dec h0 h) as [->|Hne].
    + rewrite !decide_True by done. simpl. by rewrite <- !app_assoc.
    + by rewrite !decide_False by done.
Qed.

Lemma concat_repeat_comm {X : Type} (x : list X) (n : nat) :
  x ++ List.concat (List.repeat x n) = List.concat (List.repeat x n) ++ x.
Proof.
  induction n as [|n IH]; simpl; [by rewrite app_nil_r|].
  rewrite <- app_assoc. f_equal. exact IH.
Qed.

Lemma wired_repeat (chain : list Filter) (requestLogFilter : Filter) (n : nat) :
  0 < n ->
  exists front,
    chain ++ List.concat (List.repeat [requestLogFilter; recoveryFilter] n)
    = front ++ [requestLogFilter; recoveryFilter].
Proof.
  destruct n as [|n]; [lia|]. intros _.
  exists (chain ++ List.concat (List.repeat [requestLogFilter; recoveryFilter] n)).
  rewrite <- app_assoc. f_equal.
  apply (concat_repeat_comm [requestLogFilter; recoveryFilter] n).
Qed.

(** C8, as stated, fails: a factory whose request-log value has an
    unsupported type makes [AddFilters] return an error, and the chain
    of the handler is left without any filter. *)
Lemma AddFilters_unsupported_request_log :
  (AddFilters Sample.fmt_GoSyntax Sample.unsupported_factory tt [0]
     Sample.no_filters).1
  = Some ("server: unsupported request log "
          +:+ "server.RequestLogConfiguration{Type:polytype.Type{value:42}}") /\
  ~ wired (AddFilters Sample.fmt_GoSyntax Sample.unsupported_factory tt [0]
             Sample.no_filters).2 0.
Proof.
  split; [reflexivity|].
  intros (front & requestLogFilter & Hchain). simpl in Hchain.
  destruct front; discriminate Hchain.
Qed.

(** C8, amended. When the request-log filter is obtained without error,
    [AddFilters] returns [nil] and appends the request-log filter and
    then the recovery filter, in that order, to the chain of every
    handler of the list, once for each occurrence of the handler, so
    that each of those chains ends with the request-log filter followed
    by the recovery filter; the chains of other handlers are unchanged.
    When obtaining the request-log filter fails, [AddFilters] returns
    that error and changes no chain. *)
Theorem AddFilters_appends_in_order (f : commonFactory) (env : Environment)
    (handlers : list nat) (store : Store) :
  match getRequestLog fmt_GoSyntax f env with
  | (requestLogFilter, None) =>
      (AddFilters fmt_GoSyntax f env handlers store).1 = None /\
      (forall h,
          FilterChain ((AddFilters fmt_GoSyntax f env handlers store).2 h)
          = FilterChain (store h)
            ++ List.concat (List.repeat [requestLogFilter; recoveryFilter]
                              (count_occ Nat.eq_dec handlers h))) /\
      (forall h, h ∈ handlers ->
                 wired (AddFilters fmt_GoSyntax f env handlers store).2 h)
  | (_, Some e) =>
      AddFilters fmt_GoSyntax f env handlers store = (Some e, store)
  end.
Proof.
  unfold AddFilters.
  destruct (getRequestLog fmt_GoSyntax f env) as [requestLogFilter [e|]]; [done|].
  cbn [fst snd]. split; [done|]. split.
  - intros h. apply AddFilters_loop.
  - intros h Hh. unfold wired. rewrite AddFilters_loop.
    destruct (wired_repeat (FilterChain (store h)) requestLogFilter
                (count_occ Nat.eq_dec handlers h)) as [front Hfront].
    + apply count_occ_In. by apply list_elem_of_In.
    + eauto.
Qed.

End FilterClaims.

Example AddFilters_shared_handler :
  server.FilterChain
    ((server.AddFilters Sample.fmt_GoSyntax Sample.access_log_factory tt [3; 5; 3]
        Sample.no_filters).2 3)
  = [server.builtFilter "access"; server.recoveryFilter;
     server.builtFilter "access"; server.recoveryFilter].
Proof. reflexivity. Qed.

(** ** The admin environment *)

Section AdminClaims.

Lemma append_nonempty (s t : string) : t <> "" -> s +:+ t <> "".
Proof. intros Ht. destruct s; [exact Ht | discriminate]. Qed.

Lemma append_ne (s t1 t2 : string) : t1 <> t2 -> s +:+ t1 <> s +:+ t2.
Proof. intros Hne Heq. apply Hne. by apply (String.app_inj s). Qed.

(** Registering a pattern that is not yet registered succeeds. *)
Lemma Handle_fresh (pattern : string) (handler : gows.HttpHandler)
    (sh : gows.DefaultServerHandler) :
  pattern <> "" ->
  gows.ServeMux sh !! (gows.ContextPath sh +:+ pattern) = None ->
  gows.Handle pattern handler sh
  = Done {| gows.ContextPath := gows.ContextPath sh;
            gows.ServeMux :=
              <[gows.ContextPath sh +:+ pattern := handler]> (gows.ServeMux sh) |}.
Proof.
  intros Hpat Hnone. unfold gows.Handle, gows.ServeMux_Handle.
  rewrite decide_False by by apply append_nonempty.
  by rewrite Hnone.
Qed.

(** Registering a pattern a second time panics. *)
Lemma Handle_registered (pattern : string) (handler : gows.HttpHandler)
    (sh : gows.DefaultServerHandler) :
  pattern <> "" ->
  is_Some (gows.ServeMux sh !! (gows.ContextPath sh +:+ pattern)) ->
  gows.Handle pattern handler sh
  = Panic ("http: multiple registrations for " +:+ gows.ContextPath sh +:+ pattern).
Proof.
  intros Hpat [h Hsome]. unfold gows.Handle, gows.ServeMux_Handle.
  rewrite decide_False by by apply append_nonempty.
  by rewrite Hsome.
Qed.

(** The tasks of the environment are registered in order, each under
    [/tasks/<name>]. *)
Lemma Handle_tasks (ts : list core.Task) :
  forall r : core.Router,
    fold_left
      (fun sh task =>
         let path := core.tasksUri +:+ "/" +:+ core.Task_Name task in
         core.Handle "POST" path (core.TaskHandler task) sh)
      ts r
    = {| core.prefix := core.prefix r;
         core.routes := core.routes r ++ map (task_route (core.prefix r)) ts |}.
Proof.
  induction ts as [|task ts IH]; intros r.
  - simpl. rewrite app_nil_r. by destruct r.
  - cbn [fold_left map]. rewrite IH. cbn [core.Handle core.Router_ServerHandler
      core.prefix core.routes]. by rewrite <- app_assoc.
Qed.

(** What [onStarting] does on a router. *)
Lemma onStarting_Router (r : core.Router) (registry : health.Registry)
    (ts : list core.Task) (log : list core.LogLine) :
  let env := {| core.AdminServerHandler := Some r;
                core.HealthChecks := registry;
                core.tasks := ts |} in
  let r' := {| core.prefix := core.prefix r;
               core.routes :=
                 core.routes r ++ builtin_routes (core.prefix r) registry
                 ++ map (task_route (core.prefix r)) ts |} in
  let env' := {| core.AdminServerHandler := Some r';
                 core.HealthChecks := registry;
                 core.tasks := ts |} in
  core.onStarting env log
  = Done (env', core.logHealthChecks env' (core.logTasks r' env' log)).
Proof.
  intros env r' env'. unfold core.onStarting. cbn [core.AdminServerHandler env].
  rewrite Handle_tasks.
  cbn [core.Handle core.Router_ServerHandler core.PathPrefix core.prefix core.routes
       core.HealthChecks core.tasks env].
  unfold env', r', builtin_routes. rewrite <- !app_assoc. reflexivity.
Qed.

(** C9, as stated, fails: running [addHandlers] a second time on the
    same environment panics, because the patterns are registered
    already. *)
Lemma addHandlers_twice_panics :
  (env <-! gows.addHandlers Sample.admin_env; gows.addHandlers env)
  = Panic "http: multiple registrations for /ping".
Proof. vm_compute. reflexivity. Qed.

(** C9, amended. One run of the registration on a handler that has none
    of the fixed patterns yet registers, under the context path,
    exactly the fixed routes, each with its own handler: the ping
    handler at [/ping], the runtime handler at [/runtime], the
    health-check handler of the registry at [/healthcheck] and the root
    menu at [/], every other route staying as it was (package gows,
    where a task is registered by [AddTask] itself); and, besides these
    four, [/tasks/<name>] for each task of the environment, with that
    task as handler (package core). The registration is not guarded: a
    second run on the handler of package gows registers the same
    patterns again, which panics. *)
Theorem builtins_registered_by_one_run (sh : gows.DefaultServerHandler)
    (registry : health.Registry) (r : core.Router) (ts : list core.Task)
    (log : list core.LogLine) :
  (forall pattern, pattern ∈ ["/ping"; "/runtime"; "/healthcheck"; "/"] ->
                   gows.ServeMux sh !! (gows.ContextPath sh +:+ pattern) = None) ->
  (exists sh',
      gows.addHandlers {| gows.ServerHandler := Some sh;
                          gows.HealthCheckRegistry := registry |}
      = Done {| gows.ServerHandler := Some sh';
                gows.HealthCheckRegistry := registry |} /\
      gows.ContextPath sh' = gows.ContextPath sh /\
      gows.ServeMux sh' !! (gows.ContextPath sh +:+ "/ping")
      = Some gows.HandlerFunc_handleAdminPing /\
      gows.ServeMux sh' !! (gows.ContextPath sh +:+ "/runtime")
      = Some gows.HandlerFunc_handleAdminRuntime /\
      gows.ServeMux sh' !! (gows.ContextPath sh +:+ "/healthcheck")
      = Some (gows.DefaultHealthCheckHandler registry) /\
      gows.ServeMux sh' !! (gows.ContextPath sh +:+ "/")
      = Some (gows.DefaultAdminHandler (gows.ContextPath sh)) /\
      (forall path, path ∉ builtin_patterns (gows.ContextPath sh) ->
                    gows.ServeMux sh' !! path = gows.ServeMux sh !! path) /\
      dom (gows.ServeMux sh')
      = builtin_patterns (gows.ContextPath sh) ∪ dom (gows.ServeMux sh) /\
      gows.addHandlers {| gows.ServerHandler := Some sh';
                          gows.HealthCheckRegistry := registry |}
      = Panic ("http: multiple registrations for "
               +:+ gows.ContextPath sh +:+ "/ping")) /\
  (exists r' log',
      core.onStarting {| core.AdminServerHandler := Some r;
                         core.HealthChecks := registry;
                         core.tasks := ts |} log
      = Done ({| core.AdminServerHandler := Some r';
                 core.HealthChecks := registry;
                 core.tasks := ts |}, log') /\
      core.prefix r' = core.prefix r /\
      core.routes r'
      = core.routes r ++ builtin_routes (core.prefix r) registry
        ++ map (task_route (core.prefix r)) ts).
Proof.
  intros Hfresh. split.
  - destruct sh as [cp mux]. cbn [gows.ContextPath gows.ServeMux] in *.
    assert (mux !! (cp +:+ "/ping") = None) as Hping
      by (apply Hfresh; rewrite !elem_of_cons; tauto).
    assert (mux !! (cp +:+ "/runtime") = None) as Hruntime
      by (apply Hfresh; rewrite !elem_of_cons; tauto).
    assert (mux !! (cp +:+ "/healthcheck") = None) as Hhealth
      by (apply Hfresh; rewrite !elem_of_cons; tauto).
    assert (mux !! (cp +:+ "/") = None) as Hroot
      by (apply Hfresh; rewrite !elem_of_cons; tauto).
    eexists. unfold gows.addHandlers. cbn [gows.ServerHandler gows.HealthCheckRegistry].
    unfold gows.pingUri, gows.runtimeUri, gows.healthCheckUri.
    rewrite Handle_fresh; [cbn [obind gows.ContextPath gows.ServeMux]|done|done].
    rewrite Handle_fresh; [cbn [obind gows.ContextPath gows.ServeMux]|done|].
    2:{ cbn [gows.ContextPath gows.ServeMux].
        rewrite lookup_insert_ne by (apply append_ne; discriminate). done. }
    rewrite Handle_fresh; [cbn [obind gows.ContextPath gows.ServeMux]|done|].
    2:{ cbn [gows.ContextPath gows.ServeMux].
        rewrite !lookup_insert_ne by (apply append_ne; discriminate). done. }
    rewrite Handle_fresh; [cbn [obind gows.ContextPath gows.ServeMux]|done|].
    2:{ cbn [gows.ContextPath gows.ServeMux].
        rewrite !lookup_insert_ne by (apply append_ne; discriminate). done. }
    split; [reflexivity|]. split; [reflexivity|]. cbn [gows.ServeMux].
    split.
    { rewrite !lookup_insert_ne by (apply append_ne; discriminate).
      apply lookup_insert_eq. }
    split.
    { rewrite !lookup_insert_ne by (apply append_ne; discriminate).
      apply lookup_insert_eq. }
    split.
    { rewrite !lookup_insert_ne by (apply append_ne; discriminate).
      apply lookup_insert_eq. }
    split; [apply lookup_insert_eq|].
    split.
    { intros path. unfold builtin_patterns.
      rewrite !elem_of_union, !elem_of_singleton. intros Hpath.
      rewrite !lookup_insert_ne; [done|intros <-; tauto..]. }
    split.
    + rewrite !dom_insert_L. unfold builtin_patterns.
      apply set_eq. intros x. rewrite !elem_of_union, !elem_of_singleton. tauto.
    + rewrite Handle_registered; [done|done|].
      cbn [gows.ContextPath gows.ServeMux].
      rewrite !lookup_insert_ne by (apply append_ne; discriminate).
      rewrite lookup_insert_eq. eauto.
  - eexists _, _. rewrite onStarting_Router. split; [reflexivity|]. done.
Qed.

Lemma builtins_registered_by_one_run_witness :
  (forall pattern, pattern ∈ ["/ping"; "/runtime"; "/healthcheck"; "/"] ->
      gows.ServeMux gows.NewDefaultServerHandler
        !! (gows.ContextPath gows.NewDefaultServerHandler +:+ pattern) = None) /\
  (exists sh',
      gows.addHandlers Sample.admin_env
      = Done {| gows.ServerHandler := Some sh';
                gows.HealthCheckRegistry := Sample.registry |} /\
      gows.ContextPath sh' = "" /\
      gows.ServeMux sh' !! ("" +:+ "/ping") = Some gows.HandlerFunc_handleAdminPing /\
      gows.ServeMux sh' !! ("" +:+ "/runtime")
      = Some gows.HandlerFunc_handleAdminRuntime /\
      gows.ServeMux sh' !! ("" +:+ "/healthcheck")
      = Some (gows.DefaultHealthCheckHandler Sample.registry) /\
      gows.ServeMux sh' !! ("" +:+ "/") = Some (gows.DefaultAdminHandler "") /\
      (forall path, path ∉ builtin_patterns "" ->
                    gows.ServeMux sh' !! path
                    = (∅ : gmap string gows.HttpHandler) !! path) /\
      dom (gows.ServeMux sh') = builtin_patterns "" ∪ dom (∅ : gmap string gows.HttpHandler) /\
      gows.addHandlers {| gows.ServerHandler := Some sh';
                          gows.HealthCheckRegistry := Sample.registry |}
      = Panic ("http: multiple registrations for " +:+ "" +:+ "/ping")) /\
  (exists r' log',
      core.onStarting {| core.AdminServerHandler := Some Sample.admin_router;
                         core.HealthChecks := Sample.registry;
                         core.tasks := [core.GCTask; core.LogTask] |} []
      = Done ({| core.AdminServerHandler := Some r';
                 core.HealthChecks := Sample.registry;
                 core.tasks := [core.GCTask; core.LogTask] |}, log') /\
      core.prefix r' = "/admin" /\
      core.routes r'
      = [] ++ builtin_routes "/admin" Sample.registry
        ++ map (task_route "/admin") [core.GCTask; core.LogTask]).
Proof.
  assert (forall pattern, pattern ∈ ["/ping"; "/runtime"; "/healthcheck"; "/"] ->
            gows.ServeMux gows.NewDefaultServerHandler
              !! (gows.ContextPath gows.NewDefaultServerHandler +:+ pattern) = None)
    as Hfresh by (intros pattern _; apply lookup_empty).
  split; [exact Hfresh|].
  exact (builtins_registered_by_one_run gows.NewDefaultServerHandler Sample.registry
           Sample.admin_router [core.GCTask; core.LogTask] [] Hfresh).
Defined.

(** C10. An environment made by [NewAdminEnvironment] has the two tasks
    [gc] and [log] before the application adds any. Whatever tasks the
    application adds, the registration registers [POST /tasks/gc] for
    the [GCTask] and [POST /tasks/log] for the [LogTask] under the path
    prefix. The [GCTask] writes its running marker, runs the
    collector, then writes its done marker. *)
Theorem default_tasks_exposed (r : core.Router) (registry : health.Registry)
    (app_tasks : list core.Task) (log : list core.LogLine) :
  core.tasks (core.NewAdminEnvironment (SH := core.Router))
  = [core.GCTask; core.LogTask] /\
  map core.Task_Name [core.GCTask; core.LogTask] = ["gc"; "log"] /\
  (exists r' log',
      core.onStarting
        {| core.AdminServerHandler := Some r;
           core.HealthChecks := registry;
           core.tasks := core.tasks (core.AddTask app_tasks (core.NewAdminEnvironment (SH := core.Router))) |}
        log
      = Done ({| core.AdminServerHandler := Some r';
                 core.HealthChecks := registry;
                 core.tasks :=
                   core.tasks (core.AddTask app_tasks (core.NewAdminEnvironment (SH := core.Router))) |},
              log') /\
      ("POST", core.prefix r +:+ "/tasks/gc", core.TaskHandler core.GCTask)
        ∈ core.routes r' /\
      ("POST", core.prefix r +:+ "/tasks/log", core.TaskHandler core.LogTask)
        ∈ core.routes r') /\
  core.GCTask_ServeHTTP []
  = [core.Wrote ("Running GC..." +:+ LF); core.RuntimeGC;
     core.Wrote ("Done!" +:+ LF)].
Proof.
  split; [reflexivity|]. split; [reflexivity|]. split; [|reflexivity].
  eexists _, _. rewrite onStarting_Router. split; [reflexivity|].
  cbn [core.routes core.tasks core.AddTask core.NewAdminEnvironment app map].
  rewrite !elem_of_app, !elem_of_cons. unfold task_route at 1 2.
  cbn [core.Task_Name]. unfold core.gcTaskName, core.logTaskName. tauto.
Qed.

Example onStarting_sample :
  core.onStarting {| core.AdminServerHandler := Some Sample.admin_router;
                     core.HealthChecks := [];
                     core.tasks := core.tasks (core.NewAdminEnvironment (SH := core.Router)) |} []
  = Done
      ({| core.AdminServerHandler :=
            Some {| core.prefix := "/admin";
                    core.routes :=
                      [("GET", "/admin/ping", core.HandlerFunc_handleAdminPing);
                       ("GET", "/admin/runtime", core.HandlerFunc_handleAdminRuntime);
                       ("GET", "/admin/healthcheck", core.HealthCheckHandler []);
                       ("GET", "/admin/", core.AdminHandler "/admin");
                       ("POST", "/admin/tasks/gc", core.TaskHandler core.GCTask);
                       ("POST", "/admin/tasks/log", core.TaskHandler core.LogTask)] |};
          core.HealthChecks := [];
          core.tasks := [core.GCTask; core.LogTask] |},
       [{| core.logger := "gomelon.admin"; core.level := "INFO";
           core.text :=
             "tasks =" +:+ LF +:+ LF
             +:+ "    POST    /admin/tasks/gc (*core.GCTask)" +:+ LF
             +:+ "    POST    /admin/tasks/log (*core.LogTask)" +:+ LF |};
        {| core.logger := "gomelon.admin"; core.level := "WARN";
           core.text := core.noHealthChecksWarning |};
        {| core.logger := "gomelon.admin"; core.level := "DEBUG";
           core.text := "health checks = []" |}]).
Proof. vm_compute. reflexivity. Qed.

(** Package core has no guard either: a second run of [onStarting]
    registers every route a second time. *)
Example onStarting_twice_registers_twice :
  (r <-! core.onStarting
           {| core.AdminServerHandler := Some Sample.admin_router;
              core.HealthChecks := [];
              core.tasks := [core.GCTask] |} [];
   r <-! core.onStarting r.1 r.2;
   Done (map (fun route => route.1.2) <$> (core.routes <$> core.AdminServerHandler r.1)))
  = Done (Some ["/admin/ping"; "/admin/runtime"; "/admin/healthcheck"; "/admin/";
                "/admin/tasks/gc";
                "/admin/ping"; "/admin/runtime"; "/admin/healthcheck"; "/admin/";
                "/admin/tasks/gc"]).
Proof. vm_compute. reflexivity. Qed.

End AdminClaims.


(** * Further properties *)

(** ** Building and starting the server *)

Section ServerMore.
Import gows.

Lemma AddConnectors_fold (handler : nat) (cfgs : list ConnectorConfiguration) :
  forall cs : list DefaultServerConnector,
    fold_left (fun cs cfg => cs ++ [newServerConnector handler cfg]) cfgs cs
    = cs ++ map (newServerConnector handler) cfgs.
Proof.
  induction cfgs as [|cfg cfgs IH]; intros cs; simpl.
  - by rewrite app_nil_r.
  - by rewrite IH, <- app_assoc.
Qed.

(** [AddConnectors] keeps the connectors the server has, in their
    order, and appends one connector per configuration, in the order of
    the configurations; each new connector listens on the address of
    its configuration and keeps that configuration. *)
Theorem AddConnectors_appends (handler : nat) (cfgs : list ConnectorConfiguration)
    (server : DefaultServer) :
  Connectors (AddConnectors handler cfgs server)
  = Connectors server ++ map (newServerConnector handler) cfgs /\
  map (fun c => Server_Addr (Server c)) (map (newServerConnector handler) cfgs)
  = map Addr cfgs /\
  map configuration (map (newServerConnector handler) cfgs) = cfgs /\
  server_configuration (AddConnectors handler cfgs server)
  = server_configuration server.
Proof.
  split; [apply AddConnectors_fold|]. split; [|split; [|done]].
  - rewrite map_map. by apply map_ext.
  - rewrite map_map. simpl. apply map_id.
Qed.

Lemma launch_Sending (net : Net) (c0 c : DefaultServerConnector) (r : option error) :
  launch net c0 = Sending c r -> c0 = c /\ start net c0 = Returns r.
Proof.
  unfold launch. destruct (start net c0) as [|r0]; [discriminate|].
  intros [= -> ->]. done.
Qed.

(** A result that was received was sent by a connector whose [start()]
    returned it. *)
Lemma delivered_result_source (net : Net) (cs : list DefaultServerConnector) :
  forall (gs : list goroutine) (c : DefaultServerConnector) (r : option error),
    Forall2 delivered_from (map (launch net) cs) gs ->
    Exited c r ∈ gs ->
    c ∈ cs /\ start net c = Returns r.
Proof.
  induction cs as [|c0 cs IH]; intros gs c r HF Hin.
  - inversion HF; subst. by apply elem_of_nil in Hin.
  - simpl in HF. inversion HF as [|g0 g l0 l Hg HF' E1 E2]; subst.
    apply elem_of_cons in Hin as [<-|Hin].
    + destruct Hg as [Hg|(c' & r' & Hl & [= <- <-])].
      * pose proof (launch_not_exited net c0 c r) as Hne.
        unfold launch in *. destruct (start net c0); discriminate.
      * apply launch_Sending in Hl as [-> Hl]. split; [left|done].
    + destruct (IH _ _ _ HF' Hin) as [Hc Hr]. split; [by right|done].
Qed.

Lemma exited_le_length (gs : list goroutine) : exited gs <= length gs.
Proof. unfold exited. apply List.filter_length_le. Qed.

(** When every goroutine has finished, every connector has returned a
    result that was received. *)
Lemma all_exited_sources (net : Net) (cs : list DefaultServerConnector) :
  forall gs : list goroutine,
    Forall2 delivered_from (map (launch net) cs) gs ->
    exited gs = length gs ->
    forall c, c ∈ cs -> exists r, Exited c r ∈ gs.
Proof.
  induction cs as [|c0 cs IH]; intros gs HF Hall c Hc.
  - by apply elem_of_nil in Hc.
  - simpl in HF. inversion HF as [|g0 g l0 l Hg HF' E1 E2]; subst.
    pose proof (exited_le_length l) as Hle.
    assert (is_exited g = true /\ exited l = length l) as [Hg1 Hl].
    { unfold exited in *. simpl in Hall. destruct (is_exited g); simpl in *; [|lia].
      split; [done|lia]. }
    apply elem_of_cons in Hc as [->|Hc].
    + destruct Hg as [->|(c' & r' & Hl' & ->)].
      * unfold launch in Hg1. destruct (start net c0); discriminate.
      * apply launch_Sending in Hl' as [-> _]. exists r'. left.
    + destruct (IH _ HF' Hl c Hc) as [r Hr]. exists r. by right.
Qed.

(** The invariant of the receiving loop, for a whole run of [Start]. *)
Lemma Start_inv (net : Net) (sched : list nat) (server : DefaultServer)
    (out : StartOutcome) (p : Proc) :
  Start net sched server = (out, p) ->
  Forall2 delivered_from (map (launch net) (Connectors server)) (goroutines p) /\
  match out with
  | Returned None =>
      exited (goroutines p) = length (goroutines p) /\ stops p = 0 /\
      Forall nil_if_exited (goroutines p)
  | Returned (Some e) =>
      stops p = 1 /\ Exited_with e (goroutines p)
  | Blocked => stops p = 0
  end.
Proof.
  unfold Start. intros Hrun.
  pose proof (Start_loop_inv server (length (Connectors server)) sched
                (map (launch net) (Connectors server)) 0) as H.
  rewrite Hrun in H. destruct H as [HF Hout].
  { apply Forall_forall. intros g Hg. apply in_map_iff in Hg as (c & <- & _).
    apply launch_not_exited. }
  split; [done|]. destruct out as [[e|]|].
  - destruct Hout as (? & pre & c & post & Hgs & _). split; [done|].
    exists c. rewrite Hgs, elem_of_app, elem_of_cons. tauto.
  - destruct Hout as (He & ? & ?). rewrite exited_launch in He. simpl in He.
    pose proof (Forall2_length HF) as Hlen. rewrite length_map in Hlen.
    repeat split; [lia|done..].
  - tauto.
Qed.

(** [Start] calls [Stop] exactly when it returns an error: once in that
    case, and not at all when it returns [nil] or blocks. *)
Theorem Start_calls_Stop_iff_error (net : Net) (sched : list nat)
    (server : DefaultServer) :
  stops (Start net sched server).2
  = match (Start net sched server).1 with
    | Returned (Some _) => 1
    | _ => 0
    end.
Proof.
  destruct (Start net sched server) as [out p] eqn:Hrun.
  apply Start_inv in Hrun as [_ Hout]. simpl.
  destruct out as [[e|]|]; tauto.
Qed.

(** An error [Start] returns is the error that the [start()] of one of
    the connectors of the server returned. *)
Theorem Start_error_comes_from_connector (net : Net) (sched : list nat)
    (server : DefaultServer) (e : error) :
  (Start net sched server).1 = Returned (Some e) ->
  exists c, c ∈ Connectors server /\ start net c = Returns (Some e).
Proof.
  destruct (Start net sched server) as [out p] eqn:Hrun.
  apply Start_inv in Hrun as [HF Hout]. simpl. intros ->.
  destruct Hout as (_ & c & Hc). exists c.
  by apply (delivered_result_source net _ _ _ _ HF).
Qed.

Lemma Start_error_comes_from_connector_witness :
  (Start Sample.net_busy [0] Sample.failing_server).1
  = Returned (Some Sample.no_cert) /\
  exists c, c ∈ Connectors Sample.failing_server /\
            start Sample.net_busy c = Returns (Some Sample.no_cert).
Proof.
  split; [reflexivity|].
  apply (Start_error_comes_from_connector Sample.net_busy [0] Sample.failing_server
           Sample.no_cert).
  reflexivity.
Defined.

(** [Start] returns [nil] only when the [start()] of every connector has
    returned [nil]. *)
Theorem Start_nil_only_if_all_nil (net : Net) (sched : list nat)
    (server : DefaultServer) :
  (Start net sched server).1 = Returned None ->
  forall c, c ∈ Connectors server -> start net c = Returns None.
Proof.
  destruct (Start net sched server) as [out p] eqn:Hrun.
  apply Start_inv in Hrun as [HF Hout]. simpl. intros -> c Hc.
  destruct Hout as (He & _ & Hnil).
  destruct (all_exited_sources net _ _ HF He c Hc) as [r Hr].
  destruct (delivered_result_source net _ _ _ _ HF Hr) as [_ Hstart].
  rewrite Hstart. f_equal.
  rewrite Forall_forall in Hnil.
  apply (Hnil (Exited c r) ltac:(by apply list_elem_of_In) c r eq_refl).
Qed.

Lemma Start_nil_only_if_all_nil_witness :
  (Start Sample.net_closed [1; 0] Sample.two_conn_server).1 = Returned None /\
  forall c, c ∈ Connectors Sample.two_conn_server ->
            start Sample.net_closed c = Returns None.
Proof.
  split; [reflexivity|].
  apply (Start_nil_only_if_all_nil Sample.net_closed [1; 0] Sample.two_conn_server).
  reflexivity.
Defined.

(** [Start] does not return while no connector has failed and one is
    still serving: whatever the scheduler chooses, it stays blocked in
    its receive, and [Stop] is not called. *)
Theorem Start_blocks_while_serving (net : Net) (sched : list nat)
    (server : DefaultServer) (c : DefaultServerConnector) :
  c ∈ Connectors server ->
  start net c = Serves ->
  (forall c' e, c' ∈ Connectors server -> start net c' <> Returns (Some e)) ->
  (Start net sched server).1 = Blocked /\ stops (Start net sched server).2 = 0.
Proof.
  intros Hc Hserves Hnofail.
  destruct (Start net sched server) as [out p] eqn:Hrun.
  apply Start_inv in Hrun as [HF Hout]. simpl.
  destruct out as [[e|]|].
  - exfalso. destruct Hout as (_ & c' & Hc').
    destruct (delivered_result_source net _ _ _ _ HF Hc') as [Hin Hr].
    by apply (Hnofail c' e).
  - exfalso. destruct Hout as (He & _ & _).
    destruct (all_exited_sources net _ _ HF He c Hc) as [r Hr].
    destruct (delivered_result_source net _ _ _ _ HF Hr) as [_ Hstart].
    congruence.
  - done.
Qed.

Lemma Start_blocks_while_serving_witness :
  Sample.app_conn ∈ Connectors Sample.two_conn_server /\
  start Sample.net_up Sample.app_conn = Serves /\
  (Start Sample.net_up [7; 3] Sample.two_conn_server).1 = Blocked /\
  stops (Start Sample.net_up [7; 3] Sample.two_conn_server).2 = 0.
Proof.
  assert (Sample.app_conn ∈ Connectors Sample.two_conn_server) as Hin
    by apply list_elem_of_here.
  split; [exact Hin|]. split; [reflexivity|].
  apply (Start_blocks_while_serving Sample.net_up [7; 3] Sample.two_conn_server
           Sample.app_conn Hin eq_refl).
  intros c' e _. unfold start. destruct (String.eqb _ _); discriminate.
Defined.

End ServerMore.

(** ** The handler of the admin listener *)

Section HandlerMore.
Import gows.

Lemma Handle_Done_inv (pattern : string) (handler : HttpHandler)
    (sh sh' : DefaultServerHandler) :
  Handle pattern handler sh = Done sh' ->
  ContextPath sh +:+ pattern <> "" /\
  ServeMux sh !! (ContextPath sh +:+ pattern) = None /\
  sh' = {| ContextPath := ContextPath sh;
           ServeMux := <[ContextPath sh +:+ pattern := handler]> (ServeMux sh) |}.
Proof.
  unfold Handle, ServeMux_Handle.
  destruct (decide (ContextPath sh +:+ pattern = "")); [discriminate|].
  destruct (ServeMux sh !! (ContextPath sh +:+ pattern)); [discriminate|].
  simpl. intros [= <-]. done.
Qed.

Lemma Handle_Panic_inv (pattern : string) (handler : HttpHandler)
    (sh : DefaultServerHandler) (msg : string) :
  Handle pattern handler sh = Panic msg ->
  ContextPath sh +:+ pattern = "" \/
  is_Some (ServeMux sh !! (ContextPath sh +:+ pattern)).
Proof.
  unfold Handle, ServeMux_Handle.
  destruct (decide (ContextPath sh +:+ pattern = "")); [tauto|].
  destruct (ServeMux sh !! (ContextPath sh +:+ pattern)); [eauto|discriminate].
Qed.

(** [Handle] either registers the handler under the context path or
    panics, and never replaces a handler. It returns exactly when the
    full path is not empty and not yet registered, and then the result
    is the same handler with that one path added: the path holds the
    new handler, no other path has changed, the context path is the
    same. It panics exactly when the full path is empty or taken. *)
Theorem Handle_registers_or_panics (pattern : string) (handler : HttpHandler)
    (sh : DefaultServerHandler) :
  match Handle pattern handler sh with
  | Done sh' =>
      ContextPath sh +:+ pattern <> "" /\
      ServeMux sh !! (ContextPath sh +:+ pattern) = None /\
      sh' = {| ContextPath := ContextPath sh;
               ServeMux := <[ContextPath sh +:+ pattern := handler]> (ServeMux sh) |} /\
      ContextPath sh' = ContextPath sh /\
      ServeMux sh' !! (ContextPath sh +:+ pattern) = Some handler /\
      forall path, path <> ContextPath sh +:+ pattern ->
                   ServeMux sh' !! path = ServeMux sh !! path
  | Panic _ =>
      ContextPath sh +:+ pattern = "" \/
      is_Some (ServeMux sh !! (ContextPath sh +:+ pattern))
  end.
Proof.
  destruct (Handle pattern handler sh) as [sh'|msg] eqn:E.
  - apply Handle_Done_inv in E as (Hpath & Hfree & ->). simpl.
    split; [done|]. split; [done|]. split; [done|]. split; [done|].
    split; [apply lookup_insert_eq|].
    intros path Hne. by apply lookup_insert_ne.
  - by apply Handle_Panic_inv in E.
Qed.

(** The empty path is refused and a taken path is refused, whatever the
    handler. *)
Example Handle_refuses_empty_and_taken :
  Handle "" HandlerFunc_handleAdminPing NewDefaultServerHandler
  = Panic "http: invalid pattern " /\
  (sh <-! Handle "/ping" HandlerFunc_handleAdminPing NewDefaultServerHandler;
   Handle "/ping" HandlerFunc_handleAdminRuntime sh)
  = Panic "http: multiple registrations for /ping".
Proof. split; vm_compute; reflexivity. Qed.

(** Registering a second task under a name that is taken panics: the
    task registered first stays. *)
Theorem AddTask_same_name_twice_panics (name : string) (task1 task2 : nat)
    (env env1 : AdminEnvironment) :
  AddTask name task1 env = Done env1 ->
  exists sh1,
    ServerHandler env1 = Some sh1 /\
    ServeMux sh1 !! (ContextPath sh1 +:+ "/tasks/" +:+ name) = Some (TaskHandler task1) /\
    AddTask name task2 env1
    = Panic ("http: multiple registrations for "
             +:+ ContextPath sh1 +:+ "/tasks/" +:+ name).
Proof.
  unfold AddTask. destruct (ServerHandler env) as [sh|]; [|discriminate].
  destruct (Handle ("/tasks/" +:+ name) (TaskHandler task1) sh) as [sh1|] eqn:E;
    [|discriminate].
  simpl. intros [= <-]. apply Handle_Done_inv in E as (_ & _ & ->).
  eexists. split; [reflexivity|]. simpl.
  split; [apply lookup_insert_eq|].
  unfold Handle, ServeMux_Handle. simpl.
  rewrite decide_False by (apply append_nonempty; discriminate).
  by rewrite lookup_insert_eq.
Qed.

Lemma AddTask_same_name_twice_panics_witness :
  AddTask "reload" 1 Sample.admin_env
  = Done {| ServerHandler :=
              Some {| ContextPath := "";
                      ServeMux := {[ "/tasks/reload" := TaskHandler 1 ]} |};
            HealthCheckRegistry := Sample.registry |} /\
  exists sh1,
    ServerHandler
      {| ServerHandler :=
           Some {| ContextPath := "";
                   ServeMux := {[ "/tasks/reload" := TaskHandler 1 ]} |};
         HealthCheckRegistry := Sample.registry |} = Some sh1 /\
    ServeMux sh1 !! (ContextPath sh1 +:+ "/tasks/" +:+ "reload")
    = Some (TaskHandler 1) /\
    AddTask "reload" 2
      {| ServerHandler :=
           Some {| ContextPath := "";
                   ServeMux := {[ "/tasks/reload" := TaskHandler 1 ]} |};
         HealthCheckRegistry := Sample.registry |}
    = Panic ("http: multiple registrations for "
             +:+ ContextPath sh1 +:+ "/tasks/" +:+ "reload").
Proof.
  assert (AddTask "reload" 1 Sample.admin_env
          = Done {| ServerHandler :=
                      Some {| ContextPath := "";
                              ServeMux := {[ "/tasks/reload" := TaskHandler 1 ]} |};
                    HealthCheckRegistry := Sample.registry |}) as Hrun
    by reflexivity.
  split; [exact Hrun|].
  exact (AddTask_same_name_twice_panics "reload" 1 2 Sample.admin_env _ Hrun).
Defined.

Lemma addHandlers_fresh_Done (sh : DefaultServerHandler) (registry : health.Registry) :
  (forall pattern, pattern ∈ ["/ping"; "/runtime"; "/healthcheck"; "/"] ->
                   ServeMux sh !! (ContextPath sh +:+ pattern) = None) ->
  addHandlers {| ServerHandler := Some sh; HealthCheckRegistry := registry |}
  = Done {| ServerHandler :=
              Some {| ContextPath := ContextPath sh;
                      ServeMux := with_builtins (ContextPath sh) registry (ServeMux sh) |};
            HealthCheckRegistry := registry |}.
Proof.
  intros Hfresh. destruct sh as [cp mux]. cbn [ContextPath ServeMux] in *.
  assert (mux !! (cp +:+ "/ping") = None) as Hping
    by (apply Hfresh; rewrite !elem_of_cons; tauto).
  assert (mux !! (cp +:+ "/runtime") = None) as Hruntime
    by (apply Hfresh; rewrite !elem_of_cons; tauto).
  assert (mux !! (cp +:+ "/healthcheck") = None) as Hhealth
    by (apply Hfresh; rewrite !elem_of_cons; tauto).
  assert (mux !! (cp +:+ "/") = None) as Hroot
    by (apply Hfresh; rewrite !elem_of_cons; tauto).
  unfold addHandlers. cbn [ServerHandler HealthCheckRegistry].
  unfold pingUri, runtimeUri, healthCheckUri.
  rewrite Handle_fresh; [cbn [obind ContextPath ServeMux]|done|done].
  rewrite Handle_fresh; [cbn [obind ContextPath ServeMux]|done|].
  2:{ cbn [ContextPath ServeMux].
      rewrite lookup_insert_ne by (apply append_ne; discriminate). done. }
  rewrite Handle_fresh; [cbn [obind ContextPath ServeMux]|done|].
  2:{ cbn [ContextPath ServeMux].
      rewrite !lookup_insert_ne by (apply append_ne; discriminate). done. }
  rewrite Handle_fresh; [cbn [obind ContextPath ServeMux]|done|].
  2:{ cbn [ContextPath ServeMux].
      rewrite !lookup_insert_ne by (apply append_ne; discriminate). done. }
  reflexivity.
Qed.

Lemma addHandlers_Done_inv (env env' : AdminEnvironment) :
  addHandlers env = Done env' ->
  exists sh,
    ServerHandler env = Some sh /\
    (forall pattern, pattern ∈ ["/ping"; "/runtime"; "/healthcheck"; "/"] ->
                     ServeMux sh !! (ContextPath sh +:+ pattern) = None) /\
    env' = {| ServerHandler :=
                Some {| ContextPath := ContextPath sh;
                        ServeMux :=
                          with_builtins (ContextPath sh) (HealthCheckRegistry env)
                            (ServeMux sh) |};
              HealthCheckRegistry := HealthCheckRegistry env |}.
Proof.
  unfold addHandlers. destruct (ServerHandler env) as [sh|]; [|discriminate].
  unfold pingUri, runtimeUri, healthCheckUri.
  destruct (Handle "/ping" _ sh) as [sh1|] eqn:E1; [|discriminate].
  cbn [obind].
  destruct (Handle "/runtime" _ sh1) as [sh2|] eqn:E2; [|discriminate].
  cbn [obind].
  destruct (Handle "/healthcheck" _ sh2) as [sh3|] eqn:E3; [|discriminate].
  cbn [obind].
  destruct (Handle "/" _ sh3) as [sh4|] eqn:E4; [|discriminate].
  cbn [obind]. intros [= <-].
  apply Handle_Done_inv in E1 as (_ & H1 & ->).
  apply Handle_Done_inv in E2 as (_ & H2 & ->).
  apply Handle_Done_inv in E3 as (_ & H3 & ->).
  apply Handle_Done_inv in E4 as (_ & H4 & ->).
  cbn [ContextPath ServeMux] in *.
  apply lookup_insert_None in H2 as [H2 _].
  apply lookup_insert_None in H3 as [H3 _]. apply lookup_insert_None in H3 as [H3 _].
  apply lookup_insert_None in H4 as [H4 _]. apply lookup_insert_None in H4 as [H4 _].
  apply lookup_insert_None in H4 as [H4 _].
  exists sh. split; [done|]. split; [|done].
  intros pattern Hp. rewrite !elem_of_cons, elem_of_nil in Hp.
  destruct Hp as [->|[->|[->|[->|[]]]]]; done.
Qed.

Lemma with_builtins_other (contextPath : string) (registry : health.Registry)
    (mux : gmap string HttpHandler) (path : string) :
  path ∉ builtin_patterns contextPath ->
  with_builtins contextPath registry mux !! path = mux !! path.
Proof.
  unfold builtin_patterns, with_builtins.
  rewrite !elem_of_union, !elem_of_singleton. intros Hpath.
  rewrite !lookup_insert_ne; [done|intros <-; tauto..].
Qed.

(** When [addHandlers] returns, none of the four fixed paths was
    registered before, and every other route is as it was: the
    registration replaces no handler and removes none. *)
Theorem addHandlers_keeps_other_routes (env env' : AdminEnvironment) :
  addHandlers env = Done env' ->
  exists sh sh',
    ServerHandler env = Some sh /\ ServerHandler env' = Some sh' /\
    ContextPath sh' = ContextPath sh /\
    HealthCheckRegistry env' = HealthCheckRegistry env /\
    (forall pattern, pattern ∈ ["/ping"; "/runtime"; "/healthcheck"; "/"] ->
                     ServeMux sh !! (ContextPath sh +:+ pattern) = None) /\
    (forall path, path ∉ builtin_patterns (ContextPath sh) ->
                  ServeMux sh' !! path = ServeMux sh !! path).
Proof.
  intros Hrun. apply addHandlers_Done_inv in Hrun as (sh & Hsh & Hfresh & ->).
  exists sh. eexists. split; [done|]. split; [reflexivity|]. simpl.
  split; [done|]. split; [done|]. split; [done|].
  intros path Hpath. by apply with_builtins_other.
Qed.

Lemma addHandlers_keeps_other_routes_witness :
  addHandlers Sample.admin_env
  = Done {| ServerHandler :=
              Some {| ContextPath := "";
                      ServeMux := with_builtins "" Sample.registry ∅ |};
            HealthCheckRegistry := Sample.registry |} /\
  exists sh sh',
    ServerHandler Sample.admin_env = Some sh /\
    ServerHandler
      {| ServerHandler :=
           Some {| ContextPath := "";
                   ServeMux := with_builtins "" Sample.registry ∅ |};
         HealthCheckRegistry := Sample.registry |} = Some sh' /\
    ContextPath sh' = ContextPath sh /\
    HealthCheckRegistry
      {| ServerHandler :=
           Some {| ContextPath := "";
                   ServeMux := with_builtins "" Sample.registry ∅ |};
         HealthCheckRegistry := Sample.registry |}
    = HealthCheckRegistry Sample.admin_env /\
    (forall pattern, pattern ∈ ["/ping"; "/runtime"; "/healthcheck"; "/"] ->
                     ServeMux sh !! (ContextPath sh +:+ pattern) = None) /\
    (forall path, path ∉ builtin_patterns (ContextPath sh) ->
                  ServeMux sh' !! path = ServeMux sh !! path).
Proof.
  assert (addHandlers Sample.admin_env
          = Done {| ServerHandler :=
                      Some {| ContextPath := "";
                              ServeMux := with_builtins "" Sample.registry ∅ |};
                    HealthCheckRegistry := Sample.registry |}) as Hrun
    by reflexivity.
  split; [exact Hrun|].
  exact (addHandlers_keeps_other_routes Sample.admin_env _ Hrun).
Defined.

Lemma task_path_not_builtin (contextPath name : string) :
  contextPath +:+ "/tasks/" +:+ name ∉ builtin_patterns contextPath.
Proof.
  unfold builtin_patterns. rewrite !elem_of_union, !elem_of_singleton.
  intros [[[H|H]|H]|H]; apply (String.app_inj contextPath) in H; discriminate H.
Qed.

(** The path of a task never collides with a fixed path: a task can be
    added before or after [addHandlers], both orders succeed and leave
    the same routes. *)
Theorem AddTask_addHandlers_commute (sh : DefaultServerHandler)
    (registry : health.Registry) (name : string) (task : nat) :
  (forall pattern, pattern ∈ ["/ping"; "/runtime"; "/healthcheck"; "/"] ->
                   ServeMux sh !! (ContextPath sh +:+ pattern) = None) ->
  ServeMux sh !! (ContextPath sh +:+ "/tasks/" +:+ name) = None ->
  exists env2,
    (env1 <-! AddTask name task
                {| ServerHandler := Some sh; HealthCheckRegistry := registry |};
     addHandlers env1) = Done env2 /\
    (env1 <-! addHandlers
                {| ServerHandler := Some sh; HealthCheckRegistry := registry |};
     AddTask name task env1) = Done env2.
Proof.
  intros Hfresh Htask.
  pose proof (task_path_not_builtin (ContextPath sh) name) as Hnot.
  eexists. split.
  - unfold AddTask at 1. cbn [ServerHandler HealthCheckRegistry].
    rewrite Handle_fresh; [|discriminate|done]. cbn [obind].
    rewrite addHandlers_fresh_Done; [reflexivity|].
    cbn [ContextPath ServeMux]. intros pattern Hp.
    rewrite lookup_insert_ne; [by apply Hfresh|].
    intros Heq. apply Hnot. rewrite Heq. unfold builtin_patterns.
    rewrite !elem_of_cons, elem_of_nil in Hp.
    rewrite !elem_of_union, !elem_of_singleton.
    destruct Hp as [->|[->|[->|[->|[]]]]]; tauto.
  - rewrite addHandlers_fresh_Done by done. cbn [obind].
    unfold AddTask. cbn [ServerHandler HealthCheckRegistry].
    rewrite Handle_fresh; [|discriminate|].
    2:{ cbn [ContextPath ServeMux]. by rewrite with_builtins_other. }
    cbn [obind ContextPath ServeMux]. do 3 f_equal.
    unfold with_builtins.
    unfold builtin_patterns in Hnot.
    rewrite !elem_of_union, !elem_of_singleton in Hnot.
    rewrite (insert_insert_ne _ (ContextPath sh +:+ "/tasks/" +:+ name)
               (ContextPath sh +:+ "/")) by tauto.
    f_equal.
    rewrite (insert_insert_ne _ (ContextPath sh +:+ "/tasks/" +:+ name)
               (ContextPath sh +:+ "/healthcheck")) by tauto.
    f_equal.
    rewrite (insert_insert_ne _ (ContextPath sh +:+ "/tasks/" +:+ name)
               (ContextPath sh +:+ "/runtime")) by tauto.
    f_equal.
    by rewrite (insert_insert_ne _ (ContextPath sh +:+ "/tasks/" +:+ name)
                  (ContextPath sh +:+ "/ping")) by tauto.
Qed.

Lemma AddTask_addHandlers_commute_witness :
  (forall pattern, pattern ∈ ["/ping"; "/runtime"; "/healthcheck"; "/"] ->
      ServeMux NewDefaultServerHandler
        !! (ContextPath NewDefaultServerHandler +:+ pattern) = None) /\
  ServeMux NewDefaultServerHandler
    !! (ContextPath NewDefaultServerHandler +:+ "/tasks/" +:+ "reload") = None /\
  exists env2,
    (env1 <-! AddTask "reload" 1 Sample.admin_env; addHandlers env1) = Done env2 /\
    (env1 <-! addHandlers Sample.admin_env; AddTask "reload" 1 env1) = Done env2.
Proof.
  assert (forall pattern, pattern ∈ ["/ping"; "/runtime"; "/healthcheck"; "/"] ->
            ServeMux NewDefaultServerHandler
              !! (ContextPath NewDefaultServerHandler +:+ pattern) = None)
    as Hfresh by (intros pattern _; apply lookup_empty).
  split; [exact Hfresh|]. split; [apply lookup_empty|].
  exact (AddTask_addHandlers_commute NewDefaultServerHandler Sample.registry
           "reload" 1 Hfresh (lookup_empty _)).
Defined.

(** *** The operational menu *)

Lemma String_eqb_false (s1 s2 : string) : s1 <> s2 -> String.eqb s1 s2 = false.
Proof. apply String.eqb_neq. Qed.

Lemma NotFound_reply (w : http.ResponseWriter) :
  http.status w = None ->
  http.status (http.NotFound w) = Some 404 /\
  http.body (http.NotFound w) = http.body w +:+ "404 page not found" +:+ LF.
Proof.
  intros Hw. unfold http.NotFound, http.Error.
  rewrite Write_status, Write_body, WriteHeader_body.
  rewrite WriteHeader_status by done. done.
Qed.

(** The menu is served at the root of the admin path only: a request
    for any other path that reaches the handler is answered with
    [404 page not found], and nothing of the menu is written. *)
Theorem DefaultAdminHandler_serves_root_only (contextPath path : string)
    (w : http.ResponseWriter) :
  http.status w = None ->
  path <> contextPath +:+ "/" ->
  http.status (DefaultAdminHandler_ServeHTTP contextPath path w) = Some 404 /\
  http.body (DefaultAdminHandler_ServeHTTP contextPath path w)
  = http.body w +:+ "404 page not found" +:+ LF.
Proof.
  intros Hw Hpath. unfold DefaultAdminHandler_ServeHTTP.
  rewrite String_eqb_false by done. cbn [negb].
  by apply NotFound_reply.
Qed.

Lemma DefaultAdminHandler_serves_root_only_witness :
  http.status http.NewResponseWriter = None /\
  "/admin/metrics" <> "/admin" +:+ "/" /\
  http.status
    (DefaultAdminHandler_ServeHTTP "/admin" "/admin/metrics" http.NewResponseWriter)
  = Some 404 /\
  http.body
    (DefaultAdminHandler_ServeHTTP "/admin" "/admin/metrics" http.NewResponseWriter)
  = http.body http.NewResponseWriter +:+ "404 page not found" +:+ LF.
Proof.
  split; [reflexivity|]. split; [discriminate|].
  apply (DefaultAdminHandler_serves_root_only "/admin" "/admin/metrics"
           http.NewResponseWriter); [reflexivity|discriminate].
Defined.

Lemma menu_has_metrics_link (contextPath : string) :
  occurs_in (menu_link contextPath "/metrics")
    (Sprintf_adminHTML contextPath "/metrics" "/ping" "/runtime" "/healthcheck").
Proof.
  unfold occurs_in, menu_link, Sprintf_adminHTML.
  exists ("<!DOCTYPE html>" +:+ LF +:+ "<html>" +:+ LF +:+ "<head>" +:+ LF
          +:+ TAB +:+ "<title>Operational Menu</title>" +:+ LF
          +:+ "</head>" +:+ LF +:+ "<body>" +:+ LF
          +:+ TAB +:+ "<h1>Operational Menu</h1>" +:+ LF
          +:+ TAB +:+ "<ul>" +:+ LF +:+ TAB +:+ TAB +:+ "<li><a ").
  exists (">Metrics</a></li>" +:+ LF
          +:+ menu_item contextPath "/ping" "Ping"
          +:+ menu_item contextPath "/runtime" "Runtime"
          +:+ menu_item contextPath "/healthcheck" "Healthcheck"
          +:+ TAB +:+ "</ul>" +:+ LF +:+ "</body>" +:+ LF +:+ "</html>" +:+ LF).
  unfold menu_item at 1. rewrite !append_assoc. reflexivity.
Qed.

(** The menu links to [/metrics] under the context path, but
    [addHandlers] registers no handler there: when nothing else has
    registered that path it stays without a handler, and the root
    handler answers a request for it with 404. *)
Theorem metrics_link_has_no_handler (env env' : AdminEnvironment)
    (sh sh' : DefaultServerHandler) :
  addHandlers env = Done env' ->
  ServerHandler env = Some sh ->
  ServerHandler env' = Some sh' ->
  ServeMux sh !! (ContextPath sh +:+ metricsUri) = None ->
  ServeMux sh' !! (ContextPath sh +:+ metricsUri) = None /\
  ServeMux sh' !! (ContextPath sh +:+ "/")
  = Some (DefaultAdminHandler (ContextPath sh)) /\
  occurs_in (menu_link (ContextPath sh) metricsUri)
    (http.body (DefaultAdminHandler_ServeHTTP (ContextPath sh)
                  (ContextPath sh +:+ "/") http.NewResponseWriter)) /\
  http.status (DefaultAdminHandler_ServeHTTP (ContextPath sh)
                 (ContextPath sh +:+ metricsUri) http.NewResponseWriter)
  = Some 404.
Proof.
  intros Hrun Hsh Hsh' Hmetrics.
  apply addHandlers_Done_inv in Hrun as (sh0 & Hsh0 & _ & ->).
  rewrite Hsh in Hsh0. injection Hsh0 as <-.
  simpl in Hsh'. injection Hsh' as <-. cbn [ServeMux].
  split; [|split; [|split]].
  - rewrite with_builtins_other; [done|].
    unfold builtin_patterns, metricsUri.
    rewrite !elem_of_union, !elem_of_singleton.
    intros [[[H|H]|H]|H]; apply (String.app_inj (ContextPath sh)) in H;
      discriminate H.
  - unfold with_builtins. apply lookup_insert_eq.
  - unfold DefaultAdminHandler_ServeHTTP. rewrite String.eqb_refl. cbn [negb].
    rewrite Write_body. cbn [http.body http.Header_Set http.NewResponseWriter].
    apply menu_has_metrics_link.
  - unfold DefaultAdminHandler_ServeHTTP.
    rewrite String_eqb_false by (apply append_ne; discriminate). cbn [negb].
    by apply NotFound_reply.
Qed.

Lemma metrics_link_has_no_handler_witness :
  addHandlers Sample.admin_env
  = Done {| ServerHandler :=
              Some {| ContextPath := "";
                      ServeMux := with_builtins "" Sample.registry ∅ |};
            HealthCheckRegistry := Sample.registry |} /\
  ServeMux {| ContextPath := ""; ServeMux := with_builtins "" Sample.registry ∅ |}
    !! (ContextPath NewDefaultServerHandler +:+ metricsUri) = None /\
  ServeMux {| ContextPath := ""; ServeMux := with_builtins "" Sample.registry ∅ |}
    !! (ContextPath NewDefaultServerHandler +:+ "/")
  = Some (DefaultAdminHandler (ContextPath NewDefaultServerHandler)) /\
  occurs_in (menu_link (ContextPath NewDefaultServerHandler) metricsUri)
    (http.body (DefaultAdminHandler_ServeHTTP (ContextPath NewDefaultServerHandler)
                  (ContextPath NewDefaultServerHandler +:+ "/")
                  http.NewResponseWriter)) /\
  http.status (DefaultAdminHandler_ServeHTTP (ContextPath NewDefaultServerHandler)
                 (ContextPath NewDefaultServerHandler +:+ metricsUri)
                 http.NewResponseWriter)
  = Some 404.
Proof.
  assert (addHandlers Sample.admin_env
          = Done {| ServerHandler :=
                      Some {| ContextPath := "";
                              ServeMux := with_builtins "" Sample.registry ∅ |};
                    HealthCheckRegistry := Sample.registry |}) as Hrun
    by reflexivity.
  split; [exact Hrun|].
  exact (metrics_link_has_no_handler Sample.admin_env _ NewDefaultServerHandler _
           Hrun eq_refl eq_refl (lookup_empty _)).
Defined.

End HandlerMore.

(** ** The admin environment of package core *)

Section CoreMore.

Lemma menu_has_metrics_link_core (contextPath : string) :
  occurs_in (menu_link contextPath core.metricsUri)
    (http.body (core.AdminHandler_ServeHTTP contextPath http.NewResponseWriter)).
Proof.
  unfold core.AdminHandler_ServeHTTP. rewrite Write_body.
  cbn [http.body http.Header_Set http.NewResponseWriter].
  apply menu_has_metrics_link.
Qed.

(** The menu of package core links to [/metrics] under the path prefix,
    but [onStarting] registers no route there, whatever the tasks are:
    when no such route was registered before, none is afterwards. *)
Theorem onStarting_registers_no_metrics (r : core.Router)
    (registry : health.Registry) (ts : list core.Task) (log : list core.LogLine) :
  (forall method handler,
      (method, core.prefix r +:+ "/metrics", handler) ∉ core.routes r) ->
  exists r' log',
    core.onStarting {| core.AdminServerHandler := Some r;
                       core.HealthChecks := registry;
                       core.tasks := ts |} log
    = Done ({| core.AdminServerHandler := Some r';
               core.HealthChecks := registry;
               core.tasks := ts |}, log') /\
    (forall method handler,
        (method, core.prefix r +:+ "/metrics", handler) ∉ core.routes r') /\
    occurs_in (menu_link (core.prefix r) "/metrics")
      (http.body (core.AdminHandler_ServeHTTP (core.prefix r) http.NewResponseWriter)).
Proof.
  intros Hnone. eexists _, _. rewrite onStarting_Router.
  split; [reflexivity|]. split; [|apply menu_has_metrics_link_core].
  intros method handler. cbn [core.routes].
  rewrite !elem_of_app. intros [Hin|[Hin|Hin]].
  - by apply (Hnone method handler).
  - unfold builtin_routes in Hin. rewrite !elem_of_cons, elem_of_nil in Hin.
    destruct Hin as [H|[H|[H|[H|[]]]]]; injection H as _ H _;
      apply (String.app_inj (core.prefix r)) in H; discriminate H.
  - apply list_elem_of_fmap in Hin as (task & H & _). unfold task_route in H.
    injection H as _ H _.
    apply (String.app_inj (core.prefix r)) in H. discriminate H.
Qed.

Lemma onStarting_registers_no_metrics_witness :
  (forall method handler,
      (method, core.prefix Sample.admin_router +:+ "/metrics", handler)
        ∉ core.routes Sample.admin_router) /\
  exists r' log',
    core.onStarting {| core.AdminServerHandler := Some Sample.admin_router;
                       core.HealthChecks := Sample.registry;
                       core.tasks := [core.GCTask; core.LogTask] |} []
    = Done ({| core.AdminServerHandler := Some r';
               core.HealthChecks := Sample.registry;
               core.tasks := [core.GCTask; core.LogTask] |}, log') /\
    (forall method handler,
        (method, core.prefix Sample.admin_router +:+ "/metrics", handler)
          ∉ core.routes r') /\
    occurs_in (menu_link (core.prefix Sample.admin_router) "/metrics")
      (http.body (core.AdminHandler_ServeHTTP (core.prefix Sample.admin_router)
                    http.NewResponseWriter)).
Proof.
  assert (forall method handler,
             (method, core.prefix Sample.admin_router +:+ "/metrics", handler)
               ∉ core.routes Sample.admin_router) as Hnone
    by (intros method handler; apply not_elem_of_nil).
  split; [exact Hnone|].
  exact (onStarting_registers_no_metrics Sample.admin_router Sample.registry
           [core.GCTask; core.LogTask] [] Hnone).
Defined.

(** Whatever implements [ServerHandler], [onStarting] only appends to
    the log: one INFO line for the tasks, then the warning that the
    application has no health checks exactly when the registry is
    empty, then one DEBUG line with the names of the health checks. *)
Theorem onStarting_log {SH : Type} `{!core.ServerHandler SH}
    (env : core.AdminEnvironment) (sh : SH) (log : list core.LogLine) :
  core.AdminServerHandler env = Some sh ->
  exists env' tasks_line,
    core.onStarting env log
    = Done (env',
            log ++ [tasks_line]
            ++ (if decide (core.HealthChecks env = [])
                then [{| core.logger := core.adminLoggerName;
                         core.level := "WARN";
                         core.text := core.noHealthChecksWarning |}]
                else [])
            ++ [{| core.logger := core.adminLoggerName;
                   core.level := "DEBUG";
                   core.text :=
                     "health checks = "
                     +:+ core.fmt_strings (map fst (core.HealthChecks env)) |}]) /\
    core.logger tasks_line = core.adminLoggerName /\
    core.level tasks_line = "INFO" /\
    core.HealthChecks env' = core.HealthChecks env /\
    core.tasks env' = core.tasks env.
Proof.
  intros Hsh. unfold core.onStarting. rewrite Hsh.
  unfold core.logHealthChecks, core.logTasks, health.Names.
  cbn [core.HealthChecks core.tasks].
  destruct (core.HealthChecks env) as [|entry registry] eqn:Hreg.
  - rewrite decide_True by done. cbn [map length Nat.leb].
    eexists _, _. split; [rewrite <- !app_assoc; reflexivity|]. done.
  - rewrite decide_False by done. cbn [map length Nat.leb].
    eexists _, _. split; [rewrite <- !app_assoc; reflexivity|]. done.
Qed.

Lemma onStarting_log_witness :
  core.AdminServerHandler
    {| core.AdminServerHandler := Some Sample.admin_router;
       core.HealthChecks := [];
       core.tasks := [core.GCTask] |} = Some Sample.admin_router /\
  exists env' tasks_line,
    core.onStarting
      {| core.AdminServerHandler := Some Sample.admin_router;
         core.HealthChecks := [];
         core.tasks := [core.GCTask] |} []
    = Done (env',
            [] ++ [tasks_line]
            ++ (if decide (([] : health.Registry) = [])
                then [{| core.logger := core.adminLoggerName;
                         core.level := "WARN";
                         core.text := core.noHealthChecksWarning |}]
                else [])
            ++ [{| core.logger := core.adminLoggerName;
                   core.level := "DEBUG";
                   core.text :=
                     "health checks = "
                     +:+ core.fmt_strings (map fst ([] : health.Registry)) |}]) /\
    core.logger tasks_line = core.adminLoggerName /\
    core.level tasks_line = "INFO" /\
    core.HealthChecks env' = [] /\
    core.tasks env' = [core.GCTask].
Proof.
  split; [reflexivity|].
  exact (onStarting_log
           {| core.AdminServerHandler := Some Sample.admin_router;
              core.HealthChecks := [];
              core.tasks := [core.GCTask] |} Sample.admin_router [] eq_refl).
Defined.

End CoreMore.

(** ** More on the health-check handler *)

Section HealthCheckMore.
Import http health.

Lemma Write_header (bytes : string) (w : ResponseWriter) :
  header (Write bytes w) = header w.
Proof. unfold Write, WriteHeader. by destruct (status w). Qed.

Lemma WriteHeader_header (code : nat) (w : ResponseWriter) :
  header (WriteHeader code w) = header w.
Proof. unfold WriteHeader. by destruct (status w). Qed.

Lemma WriteHeader_written (code c : nat) (w : ResponseWriter) :
  status w = Some c -> WriteHeader code w = w.
Proof. unfold WriteHeader. by intros ->. Qed.

Lemma writeResult_header (w : ResponseWriter) (entry : string * Result) :
  header (core.writeResult w entry) = header w.
Proof.
  destruct entry as [name result]. unfold core.writeResult.
  destruct (Cause result), (decide (Message result = ""));
    by rewrite ?Write_header.
Qed.

Lemma writeResults_header (results : list (string * Result)) (w : ResponseWriter) :
  header (fold_left core.writeResult results w) = header w.
Proof.
  revert w. induction results as [|entry results IH]; intros w; [done|].
  simpl. by rewrite IH, writeResult_header.
Qed.

Lemma forallb_Permutation {X : Type} (f : X -> bool) (l l' : list X) :
  l ≡ₚ l' -> forallb f l = forallb f l'.
Proof.
  induction 1 as [|x l l' _ IH|x y l|l l' l'' _ IH1 _ IH2]; simpl.
  - done.
  - by rewrite IH.
  - by destruct (f x), (f y).
  - by rewrite IH1.
Qed.

(** The status of the reply, whatever the state of the writer. *)
Lemma HealthCheckHandler_status (registry : Registry) (w : ResponseWriter) :
  status (core.HealthCheckHandler_ServeHTTP registry w)
  = Some (default
            (match registry with
             | [] => StatusNotImplemented
             | _ :: _ =>
                 if forallb (fun entry => Healthy entry.2) registry
                 then StatusOK else StatusInternalServerError
             end)
            (status w)).
Proof.
  unfold core.HealthCheckHandler_ServeHTTP, RunHealthChecks.
  set (w2 := Header_Set "Content-Type" _ _).
  assert (status w2 = status w) as <- by done. clearbody w2.
  destruct registry as [|entry registry].
  - cbn [length Nat.eqb]. rewrite Write_status.
    unfold WriteHeader. destruct (status w2) eqn:E; simpl; by rewrite ?E.
  - cbn [length Nat.eqb]. rewrite isAllHealthy_forallb.
    destruct (status w2) as [c|] eqn:Hw2.
    + erewrite writeResults_status; [done|].
      destruct (negb _); [|done]. by rewrite (WriteHeader_written _ c).
    + destruct (forallb _ (entry :: registry)); cbn [negb].
      * cbn [fold_left]. apply writeResults_status.
        by rewrite writeResult_status, Hw2.
      * apply writeResults_status. by apply WriteHeader_status.
Qed.

(** The order in which the result map is traversed has no influence on
    the status of the reply (in both packages): two traversals of the
    same checks give the same status and the same headers. *)
Theorem healthcheck_status_order_irrelevant (registry registry' : Registry)
    (w : ResponseWriter) :
  registry ≡ₚ registry' ->
  status (core.HealthCheckHandler_ServeHTTP registry w)
  = status (core.HealthCheckHandler_ServeHTTP registry' w) /\
  status (gows.DefaultHealthCheckHandler_ServeHTTP registry w)
  = status (gows.DefaultHealthCheckHandler_ServeHTTP registry' w).
Proof.
  intros Hperm. rewrite DefaultHealthCheckHandler_same.
  rewrite !HealthCheckHandler_status.
  assert (match registry with
          | [] => StatusNotImplemented
          | _ :: _ =>
              if forallb (fun entry => Healthy entry.2) registry
              then StatusOK else StatusInternalServerError
          end
          = match registry' with
            | [] => StatusNotImplemented
            | _ :: _ =>
                if forallb (fun entry => Healthy entry.2) registry'
                then StatusOK else StatusInternalServerError
            end) as ->; [|done].
  rewrite (forallb_Permutation _ _ _ Hperm).
  destruct registry, registry'; try done.
  - by apply Permutation_nil_cons in Hperm.
  - symmetry in Hperm. by apply Permutation_nil_cons in Hperm.
Qed.

Lemma healthcheck_status_order_irrelevant_witness :
  Sample.registry ≡ₚ reverse Sample.registry /\
  status (core.HealthCheckHandler_ServeHTTP Sample.registry NewResponseWriter)
  = status (core.HealthCheckHandler_ServeHTTP (reverse Sample.registry)
              NewResponseWriter) /\
  status (gows.DefaultHealthCheckHandler_ServeHTTP Sample.registry NewResponseWriter)
  = status (gows.DefaultHealthCheckHandler_ServeHTTP (reverse Sample.registry)
              NewResponseWriter).
Proof.
  assert (Sample.registry ≡ₚ reverse Sample.registry) as Hperm
    by (symmetry; apply reverse_Permutation).
  split; [exact Hperm|].
  exact (healthcheck_status_order_irrelevant Sample.registry
           (reverse Sample.registry) NewResponseWriter Hperm).
Defined.

(** Every reply of the health-check handler (in both packages), also
    the 501 and the 500, carries the two headers that forbid caching
    and announce plain text; no other header is touched. *)
Theorem healthcheck_headers (registry : Registry) (w : ResponseWriter) :
  header (core.HealthCheckHandler_ServeHTTP registry w)
  = <["Content-Type" := "text/plain"]>
      (<["Cache-Control" := "must-revalidate,no-cache,no-store"]> (header w)) /\
  header (gows.DefaultHealthCheckHandler_ServeHTTP registry w)
  = <["Content-Type" := "text/plain"]>
      (<["Cache-Control" := "must-revalidate,no-cache,no-store"]> (header w)).
Proof.
  rewrite DefaultHealthCheckHandler_same.
  assert (header (core.HealthCheckHandler_ServeHTTP registry w)
          = <["Content-Type" := "text/plain"]>
              (<["Cache-Control" := "must-revalidate,no-cache,no-store"]> (header w)))
    as Hcore; [|done].
  unfold core.HealthCheckHandler_ServeHTTP, RunHealthChecks.
  destruct registry as [|entry registry]; cbn [length Nat.eqb].
  - by rewrite Write_header, WriteHeader_header.
  - rewrite writeResults_header. destruct (negb _); [|done].
    by rewrite WriteHeader_header.
Qed.

End HealthCheckMore.

(** ** The log task *)

Section LogTaskMore.
Context {Level G : Type}.
Variables LevelAll LevelTrace LevelDebug LevelInfo LevelWarn LevelError LevelOff : Level.
Variable LevelString : Level -> string.
Variable EqualFold : string -> string -> bool.
Variable GetLogger : string -> G -> G.
Variable isDefaultLogger : G -> string -> bool.
Variable SetLevel : string -> Level -> G -> G.
Variable GetLevel : G -> string -> Level.

Lemma parseLogLevel_loop_first_match (level : string) (levels : list Level) :
  match core.parseLogLevel_loop LevelOff LevelString EqualFold level levels with
  | (l, true) =>
      exists before after,
        levels = before ++ l :: after /\
        EqualFold level (LevelString l) = true /\
        Forall (fun l' => EqualFold level (LevelString l') = false) before
  | (l, false) =>
      l = LevelOff /\
      Forall (fun l' => EqualFold level (LevelString l') = false) levels
  end.
Proof.
  induction levels as [|l0 levels IH]; simpl; [done|].
  destruct (EqualFold level (LevelString l0)) eqn:E.
  - exists [], levels. auto.
  - destruct (core.parseLogLevel_loop _ _ _ level levels) as [l [|]].
    + destruct IH as (before & after & -> & Hl & Hbefore).
      exists (l0 :: before), after. auto.
    + destruct IH as [-> Hall]. auto.
Qed.

(** [parseLogLevel] returns the first of the seven levels, from ALL to
    OFF, whose name equals the text up to case, with [true]; when no
    name does, it returns OFF with [false]. *)
Theorem parseLogLevel_first_match (level : string) :
  match core.parseLogLevel LevelAll LevelTrace LevelDebug LevelInfo LevelWarn
          LevelError LevelOff LevelString EqualFold level with
  | (l, true) =>
      exists before after,
        [LevelAll; LevelTrace; LevelDebug; LevelInfo; LevelWarn; LevelError; LevelOff]
        = before ++ l :: after /\
        EqualFold level (LevelString l) = true /\
        Forall (fun l' => EqualFold level (LevelString l') = false) before
  | (l, false) =>
      l = LevelOff /\
      Forall (fun l' => EqualFold level (LevelString l') = false)
        [LevelAll; LevelTrace; LevelDebug; LevelInfo; LevelWarn; LevelError; LevelOff]
  end.
Proof. unfold core.parseLogLevel. apply parseLogLevel_loop_first_match. Qed.

Lemma Error_reply (msg : string) (code : nat) (w : http.ResponseWriter) :
  http.status w = None ->
  http.status (http.Error msg code w) = Some code /\
  http.body (http.Error msg code w) = http.body w +:+ msg +:+ LF.
Proof.
  intros Hw. unfold http.Error.
  rewrite Write_status, Write_body, WriteHeader_body.
  rewrite WriteHeader_status by done. done.
Qed.

(** The log task changes no logger and looks none up unless it is given
    loggers and a level it can parse or no level: without a [logger]
    parameter it writes nothing at all, and with a level that is not
    supported it replies 400 with [Level is not supported] before any
    logger is touched. *)
Theorem LogTask_rejects_before_setting (query : gmap string (list string))
    (w : http.ResponseWriter) (g : G) :
  ((query !! "logger" = None \/ query !! "logger" = Some []) ->
   core.LogTask_ServeHTTP LevelAll LevelTrace LevelDebug LevelInfo LevelWarn
     LevelError LevelOff LevelString EqualFold GetLogger isDefaultLogger
     SetLevel GetLevel query w g = (w, g)) /\
  (forall loggers,
      query !! "logger" = Some loggers ->
      loggers <> [] ->
      core.Values_Get query "level" <> "" ->
      (core.parseLogLevel LevelAll LevelTrace LevelDebug LevelInfo LevelWarn
         LevelError LevelOff LevelString EqualFold
         (core.Values_Get query "level")).2 = false ->
      http.status w = None ->
      exists w',
        core.LogTask_ServeHTTP LevelAll LevelTrace LevelDebug LevelInfo LevelWarn
          LevelError LevelOff LevelString EqualFold GetLogger isDefaultLogger
          SetLevel GetLevel query w g = (w', g) /\
        http.status w' = Some 400 /\
        http.body w' = http.body w +:+ "Level is not supported" +:+ LF).
Proof.
  split.
  - unfold core.LogTask_ServeHTTP. by intros [->| ->].
  - intros loggers Hq Hne Hlevel Hparse Hw.
    unfold core.LogTask_ServeHTTP. rewrite Hq.
    destruct loggers as [|name loggers]; [done|].
    rewrite decide_False by done.
    destruct (core.parseLogLevel _ _ _ _ _ _ _ _ _ _) as [l ok].
    simpl in Hparse. subst ok. cbn [negb].
    eexists. split; [reflexivity|]. by apply Error_reply.
Qed.

End LogTaskMore.

Lemma LogTask_rejects_before_setting_witness :
  ({[ "logger" := ["app"; "db"]; "level" := ["verbose"] ]}
     : gmap string (list string)) !! "logger" = Some ["app"; "db"] /\
  core.Values_Get {[ "logger" := ["app"; "db"]; "level" := ["verbose"] ]} "level"
  <> "" /\
  (Sample.parseLogLevel
     (core.Values_Get {[ "logger" := ["app"; "db"]; "level" := ["verbose"] ]}
        "level")).2 = false /\
  exists w',
    Sample.LogTask_ServeHTTP
      {[ "logger" := ["app"; "db"]; "level" := ["verbose"] ]}
      http.NewResponseWriter ∅
    = (w', ∅) /\
    http.status w' = Some 400 /\
    http.body w' = http.body http.NewResponseWriter +:+ "Level is not supported" +:+ LF.
Proof.
  split; [vm_compute; reflexivity|]. split; [vm_compute; discriminate|].
  split; [vm_compute; reflexivity|].
  refine (proj2 (LogTask_rejects_before_setting 0 1 2 3 4 5 6 Sample.LevelString
                   Sample.EqualFold (fun _ g => g) (fun _ _ => true)
                   (fun name l g => <[name := l]> g)
                   (fun g name => default 3 (g !! name))
                   {[ "logger" := ["app"; "db"]; "level" := ["verbose"] ]}
                   http.NewResponseWriter ∅)
                ["app"; "db"] _ _ _ _ eq_refl).
  - vm_compute. reflexivity.
  - discriminate.
  - vm_compute. discriminate.
  - vm_compute. reflexivity.
Defined.

Example LogTask_sets_and_prints :
  Sample.LogTask_ServeHTTP
    {[ "logger" := ["app"; "db"]; "level" := ["Warn"] ]} http.NewResponseWriter ∅
  = ({| http.header := ∅; http.status := Some 200;
        http.body := "app: WARN" +:+ LF +:+ "db: WARN" +:+ LF |},
     {[ "app" := 4; "db" := 4 ]}).
Proof. vm_compute. reflexivity. Qed.

(** ** More on the server command *)

(** Reads the result, the state and the log off a finished run. *)
Ltac run_cases Hrun :=
  inversion Hrun; subst; clear Hrun; simpl.

Section ServerCommandMore.
Import gows.
Context {W Configuration Environment Server : Type}.
Variable NewEnvironment : string -> Environment.
Variable Server_Start : Server -> W -> StartOutcome * W.

(** The command calls its collaborators in one fixed order, each at
    most once, and stops at the first that fails: the stages in the log
    are a prefix of that order, and every call but the last returned
    [nil]. *)
Theorem ServerCommand_Run_call_order
    (bootstrap : @Bootstrap W Configuration Environment Server) (w w' : W)
    (out : Outcome StartOutcome) (log : CallLog) :
  ServerCommand_Run NewEnvironment Server_Start bootstrap w [] = (out, w', log) ->
  map fst log `prefix_of`
    [StageBuildConfiguration; StageBuildServer; StageBundles; StageApplication;
     StageStart] /\
  forall i stage r,
    log !! i = Some (stage, r) -> S i < length log -> r = Returned None.
Proof.
  unfold ServerCommand_Run. intros Hrun.
  assert (forall (l : list (Stage * StartOutcome)) i stage r,
             l !! i = Some (stage, r) -> S i < length l ->
             Forall (fun entry => entry.2 = Returned None) (removelast l) ->
             r = Returned None) as Hlast.
  { induction l as [|entry l IH]; intros i stage r Hi Hlen Hall; [done|].
    destruct l as [|entry' l]; [simpl in Hlen; lia|].
    change (removelast (entry :: entry' :: l))
      with (entry :: removelast (entry' :: l)) in Hall.
    apply Forall_cons_1 in Hall as [Hentry Hall].
    destruct i as [|i].
    - injection Hi as ->. exact Hentry.
    - apply (IH i stage r Hi); [simpl in *; lia|done]. }
  destruct (Arguments bootstrap) as [|arg0 arguments].
  { run_cases Hrun. split; [by eexists|]. intros i ? ? Hi. by destruct i. }
  destruct (BuildConfiguration bootstrap arguments w) as [[configuration err1] w1].
  destruct err1 as [e1|].
  { run_cases Hrun. split; [by eexists|].
    intros i stage r Hi Hlen. apply (Hlast _ _ _ _ Hi Hlen). simpl.
    repeat constructor. }
  destruct (BuildServer bootstrap configuration _ w1) as [[server err2] w2].
  destruct err2 as [e2|].
  { run_cases Hrun. split; [by eexists|].
    intros i stage r Hi Hlen. apply (Hlast _ _ _ _ Hi Hlen). simpl.
    repeat constructor. }
  destruct (run bootstrap configuration _ w2) as [err3 w3].
  destruct err3 as [e3|].
  { run_cases Hrun. split; [by eexists|].
    intros i stage r Hi Hlen. apply (Hlast _ _ _ _ Hi Hlen). simpl.
    repeat constructor. }
  destruct (Application_Run bootstrap configuration _ w3) as [err4 w4].
  destruct err4 as [e4|].
  { run_cases Hrun. split; [by eexists|].
    intros i stage r Hi Hlen. apply (Hlast _ _ _ _ Hi Hlen). simpl.
    repeat constructor. }
  destruct (Server_Start server w4) as [out5 w5].
  run_cases Hrun. split; [by exists []|].
  intros i stage r Hi Hlen. apply (Hlast _ _ _ _ Hi Hlen). simpl.
  repeat constructor.
Qed.


(** The command panics exactly when the bootstrap has no argument at
    all (it slices the arguments from the second on); in that case no
    collaborator is called and the state is untouched. *)
Theorem ServerCommand_Run_panics_iff_no_arguments
    (bootstrap : @Bootstrap W Configuration Environment Server) (w : W)
    (log : CallLog) :
  ((exists msg,
       (ServerCommand_Run NewEnvironment Server_Start bootstrap w log).1.1
       = Panic msg)
   <-> Arguments bootstrap = []) /\
  (Arguments bootstrap = [] ->
   (ServerCommand_Run NewEnvironment Server_Start bootstrap w log).1.2 = w /\
   (ServerCommand_Run NewEnvironment Server_Start bootstrap w log).2 = log).
Proof.
  unfold ServerCommand_Run.
  destruct (Arguments bootstrap) as [|arg0 arguments].
  { simpl. split; [|done]. split; [done|]. intros _. by eexists. }
  split; [|done]. split; [|done]. intros [msg Hmsg]. exfalso. revert Hmsg.
  destruct (BuildConfiguration bootstrap arguments w) as [[configuration err1] w1].
  destruct err1 as [e1|]; [done|].
  destruct (BuildServer bootstrap configuration _ w1) as [[server err2] w2].
  destruct err2 as [e2|]; [done|].
  destruct (run bootstrap configuration _ w2) as [err3 w3].
  destruct err3 as [e3|]; [done|].
  destruct (Application_Run bootstrap configuration _ w3) as [err4 w4].
  destruct err4 as [e4|]; [done|].
  destruct (Server_Start server w4) as [out5 w5]. done.
Qed.

End ServerCommandMore.

Lemma ServerCommand_Run_call_order_witness :
  gows.ServerCommand_Run (fun name => name)
    (Sample.Server_Start Sample.net_busy [0])
    (Sample.bootstrap ["server"; "app.yaml"]) tt []
  = (Done (gows.Returned (Some Sample.in_use)), tt,
     [(gows.StageBuildConfiguration, gows.Returned None);
      (gows.StageBuildServer, gows.Returned None);
      (gows.StageBundles, gows.Returned None);
      (gows.StageApplication, gows.Returned None);
      (gows.StageStart, gows.Returned (Some Sample.in_use))]) /\
  (map fst
     [(gows.StageBuildConfiguration, gows.Returned None);
      (gows.StageBuildServer, gows.Returned None);
      (gows.StageBundles, gows.Returned None);
      (gows.StageApplication, gows.Returned None);
      (gows.StageStart, gows.Returned (Some Sample.in_use))]
   `prefix_of`
     [gows.StageBuildConfiguration; gows.StageBuildServer; gows.StageBundles;
      gows.StageApplication; gows.StageStart] /\
   forall i stage r,
     [(gows.StageBuildConfiguration, gows.Returned None);
      (gows.StageBuildServer, gows.Returned None);
      (gows.StageBundles, gows.Returned None);
      (gows.StageApplication, gows.Returned None);
      (gows.StageStart, gows.Returned (Some Sample.in_use))] !! i
     = Some (stage, r) ->
     S i < 5 -> r = gows.Returned None).
Proof.
  split; [reflexivity|].
  exact (ServerCommand_Run_call_order (fun name => name)
           (Sample.Server_Start Sample.net_busy [0])
           (Sample.bootstrap ["server"; "app.yaml"]) tt tt _ _ eq_refl).
Defined.


(** ** More on wiring the filters *)

Section FilterMore.
Import server.
Context {Environment : Type}.
Variable fmt_GoSyntax : @RequestLogConfiguration Environment -> string.

(** The order in which the handlers are listed does not matter: two
    lists with the same handlers, each as often, give the same error
    and the same chain for every handler. *)
Theorem AddFilters_order_irrelevant (f : commonFactory) (env : Environment)
    (handlers handlers' : list nat) (store : Store) :
  handlers ≡ₚ handlers' ->
  (AddFilters fmt_GoSyntax f env handlers store).1
  = (AddFilters fmt_GoSyntax f env handlers' store).1 /\
  forall h,
    FilterChain ((AddFilters fmt_GoSyntax f env handlers store).2 h)
    = FilterChain ((AddFilters fmt_GoSyntax f env handlers' store).2 h).
Proof.
  intros Hperm. unfold AddFilters.
  destruct (getRequestLog fmt_GoSyntax f env) as [requestLogFilter [e|]]; [done|].
  cbn [fst snd]. split; [done|]. intros h.
  rewrite !AddFilters_loop. do 3 f_equal.
  by apply Permutation_count_occ.
Qed.

End FilterMore.

Lemma AddFilters_order_irrelevant_witness :
  [3; 5; 3] ≡ₚ [5; 3; 3] /\
  (server.AddFilters Sample.fmt_GoSyntax Sample.access_log_factory tt [3; 5; 3]
     Sample.no_filters).1
  = (server.AddFilters Sample.fmt_GoSyntax Sample.access_log_factory tt [5; 3; 3]
       Sample.no_filters).1 /\
  forall h,
    server.FilterChain ((server.AddFilters Sample.fmt_GoSyntax Sample.access_log_factory tt
                    [3; 5; 3] Sample.no_filters).2 h)
    = server.FilterChain ((server.AddFilters Sample.fmt_GoSyntax Sample.access_log_factory tt
                      [5; 3; 3] Sample.no_filters).2 h).
Proof.
  assert ([3; 5; 3] ≡ₚ [5; 3; 3]) as Hperm by apply perm_swap.
  split; [exact Hperm|].
  exact (AddFilters_order_irrelevant Sample.fmt_GoSyntax Sample.access_log_factory
           tt [3; 5; 3] [5; 3; 3] Sample.no_filters Hperm).
Defined.

Lemma Start_only_failure_witness :
  gows.Connectors Sample.two_conn_server
  = [Sample.app_conn] ++ Sample.admin_conn :: [] /\
  gows.start Sample.net_busy Sample.admin_conn = gows.Returns (Some Sample.in_use) /\
  (forall c', c' ∈ [Sample.app_conn] ++ [] ->
              gows.start Sample.net_busy c' = gows.Serves) /\
  gows.Start Sample.net_busy [4; 2] Sample.two_conn_server
  = (gows.Returned (Some Sample.in_use),
     {| gows.goroutines :=
          map gows.Serving [Sample.app_conn]
          ++ gows.Exited Sample.admin_conn (Some Sample.in_use)
             :: map gows.Serving [];
        gows.stops := 1 |}).
Proof.
  assert (forall c', c' ∈ [Sample.app_conn] ++ [] ->
                     gows.start Sample.net_busy c' = gows.Serves) as Hothers.
  { intros c' Hc'. apply list_elem_of_singleton in Hc'. subst c'. reflexivity. }
  split; [reflexivity|]. split; [reflexivity|]. split; [exact Hothers|].
  exact (Start_only_failure Sample.net_busy [4; 2] Sample.two_conn_server
           [Sample.app_conn] [] Sample.admin_conn Sample.in_use
           eq_refl eq_refl Hothers).
Defined.

Lemma ServerCommand_Run_panics_iff_no_arguments_witness :
  gows.Arguments (Sample.bootstrap []) = [] /\
  (gows.ServerCommand_Run (fun name => name)
     (Sample.Server_Start Sample.net_up []) (Sample.bootstrap []) tt []).1.2 = tt /\
  (gows.ServerCommand_Run (fun name => name)
     (Sample.Server_Start Sample.net_up []) (Sample.bootstrap []) tt []).2 = [].
Proof.
  split; [reflexivity|].
  exact (proj2 (ServerCommand_Run_panics_iff_no_arguments (fun name => name)
                  (Sample.Server_Start Sample.net_up []) (Sample.bootstrap []) tt [])
               eq_refl).
Defined.
